(** * Client registry, command queues and connection rate limiter

    A shallow embedding of [ClientManager] and [ConnectionRateLimiter]
    of [server.py], and the properties of admission control, heartbeat
    bookkeeping, bounded command queues, the inactivity sweep and the
    sliding-window rate limiter.

    Conventions of the embedding:
    - a Python [dict] is a [gmap]; the [defaultdict(list)] of command
      queues creates a missing key on subscript access, which
      [defaultdict_get] writes out;
    - [datetime.now()] and [time.time()] are inputs of the operation
      that reads them: a [datetime] is a number of microseconds ([Z]),
      [timedelta.total_seconds()] the rational [us / 10^6], and the
      [float] readings ([time.time()], percentages of [psutil]) are
      rationals ([Q]);
    - every method runs under the manager's lock, so a method is one
      atomic state transformer [ClientManager -> result * ClientManager];
    - calls to [logger] are not modelled. *)

From Stdlib Require Import ZArith QArith Lqa.
From stdpp Require Import gmap strings list fin_maps pretty.

Local Open Scope Z_scope.

(* ------------------------------------------------------------------ *)
(** ** Data model *)

(** [float] comparison [x > y] on the rational model. *)
Definition Qgt_bool (x y : Q) : bool := negb (Qle_bool x y).

(** [float] comparison [x < y]. *)
Definition Qlt_bool (x y : Q) : bool := negb (Qle_bool y x).

(** [timedelta.total_seconds()] of a difference given in microseconds. *)
Definition total_seconds (us : Z) : Q := Qmake us 1000000.

(** [@dataclass ClientInfo]. *)
Record ClientInfo := mkClientInfo {
  client_id : string;
  ip : string;
  hostname : string;
  last_seen : Z;
  status : string;
  connection_time : Z;
  resource_usage : Q;
  commands_processed : Z
}.

(** The constructor call of [register_client]: [status],
    [resource_usage] and [commands_processed] take their defaults, and
    [connection_time] is passed, so [__post_init__] leaves it alone. *)
Definition ClientInfo_new (cid addr host : string) (seen conn : Z) : ClientInfo :=
  {| client_id := cid; ip := addr; hostname := host; last_seen := seen;
     status := "online"; connection_time := conn;
     resource_usage := 0%Q; commands_processed := 0 |}.

Definition set_last_seen (t : Z) (c : ClientInfo) : ClientInfo :=
  {| client_id := client_id c; ip := ip c; hostname := hostname c;
     last_seen := t; status := status c;
     connection_time := connection_time c;
     resource_usage := resource_usage c;
     commands_processed := commands_processed c |}.

Definition set_status (s : string) (c : ClientInfo) : ClientInfo :=
  {| client_id := client_id c; ip := ip c; hostname := hostname c;
     last_seen := last_seen c; status := s;
     connection_time := connection_time c;
     resource_usage := resource_usage c;
     commands_processed := commands_processed c |}.

(** [self.system_resources]. *)
Record SystemResources := mkSystemResources {
  cpu_usage : Q;
  memory_usage : Q;
  active_connections : nat
}.

Section Registry.

(** The command dictionaries are opaque to the manager. *)
Context {Command : Type}.

(** The fields of [ClientManager] ([_lock] is the atomicity of the
    operations below). *)
Record ClientManager := mkClientManager {
  clients : gmap string ClientInfo;
  commands_queue : gmap string (list Command);
  max_clients : Z;
  resource_threshold : Q;
  system_resources : SystemResources
}.

Definition with_clients (m : gmap string ClientInfo) (st : ClientManager) : ClientManager :=
  {| clients := m; commands_queue := commands_queue st;
     max_clients := max_clients st;
     resource_threshold := resource_threshold st;
     system_resources := system_resources st |}.

Definition with_queues (q : gmap string (list Command)) (st : ClientManager) : ClientManager :=
  {| clients := clients st; commands_queue := q;
     max_clients := max_clients st;
     resource_threshold := resource_threshold st;
     system_resources := system_resources st |}.

Definition with_resources (r : SystemResources) (st : ClientManager) : ClientManager :=
  {| clients := clients st; commands_queue := commands_queue st;
     max_clients := max_clients st;
     resource_threshold := resource_threshold st;
     system_resources := r |}.

(** [ClientManager.__init__]. *)
Definition ClientManager_init (maxc : Z) (thr : Q) : ClientManager :=
  {| clients := ∅; commands_queue := ∅; max_clients := maxc;
     resource_threshold := thr;
     system_resources :=
       {| cpu_usage := 0%Q; memory_usage := 0%Q; active_connections := 0%nat |} |}.

(** [len([c for c in self.clients.values() if c.status == 'online'])]. *)
Definition online_count (m : gmap string ClientInfo) : nat :=
  length (filter (λ c, status c = "online") (map_to_list m).*2).

(** One pass of the loop body of [_start_resource_monitor]. A sample is
    [None] when the call to [psutil] raised: the assignments made before
    it stay, the ones after it are skipped. *)
Definition monitor (cpu mem : option Q) (st : ClientManager) : ClientManager :=
  match cpu with
  | None => st
  | Some c =>
      let r1 := {| cpu_usage := c;
                   memory_usage := memory_usage (system_resources st);
                   active_connections := active_connections (system_resources st) |} in
      match mem with
      | None => with_resources r1 st
      | Some m =>
          with_resources
            {| cpu_usage := c; memory_usage := m;
               active_connections := online_count (clients st) |} st
      end
  end.

(** [can_accept_client]. *)
Definition can_accept_client (st : ClientManager) : bool :=
  let active_clients := online_count (clients st) in
  if Z.of_nat active_clients >=? max_clients st then false
  else if Qgt_bool (cpu_usage (system_resources st)) 80
          || Qgt_bool (memory_usage (system_resources st)) 85 then false
  else true.

(** [register_client]; [t_seen] and [t_conn] are the two readings of
    [datetime.now()]. *)
Definition register_client (cid addr host : string) (t_seen t_conn : Z)
    (st : ClientManager) : bool * ClientManager :=
  if negb (can_accept_client st) then (false, st)
  else (true, with_clients (<[cid := ClientInfo_new cid addr host t_seen t_conn]> (clients st)) st).

(** [update_heartbeat]. *)
Definition update_heartbeat (cid : string) (now : Z) (st : ClientManager)
    : bool * ClientManager :=
  match clients st !! cid with
  | Some c =>
      (true, with_clients (<[cid := set_status "online" (set_last_seen now c)]> (clients st)) st)
  | None => (false, st)
  end.

(** Subscript access [d[k]] on a [defaultdict(list)]: a missing key is
    created with the empty list. *)
Definition defaultdict_get (k : string) (d : gmap string (list Command))
    : list Command * gmap string (list Command) :=
  match d !! k with
  | Some q => (q, d)
  | None => ([], <[k := []]> d)
  end.

(** The queue bound written in [add_command]. *)
Definition QUEUE_BOUND : nat := 10.

(** [add_command]. *)
Definition add_command (cid : string) (cmd : Command) (st : ClientManager)
    : ClientManager :=
  match clients st !! cid with
  | Some _ =>
      let '(q, d) := defaultdict_get cid (commands_queue st) in
      if (length q <? QUEUE_BOUND)%nat
      then with_queues (<[cid := q ++ [cmd]]> d) st
      else with_queues d st
  | None => st
  end.

(** [get_command]: [list.pop(0)] on a present, non-empty queue. *)
Definition get_command (cid : string) (st : ClientManager)
    : option Command * ClientManager :=
  match commands_queue st !! cid with
  | Some (cmd :: rest) => (Some cmd, with_queues (<[cid := rest]> (commands_queue st)) st)
  | _ => (None, st)
  end.

(** The test of the sweep: [(current_time - client.last_seen).total_seconds() > timeout_seconds]. *)
Definition timed_out (timeout : Q) (now : Z) (c : ClientInfo) : bool :=
  Qgt_bool (total_seconds (now - last_seen c)) timeout.

(** The body of the [for] loop of [cleanup_inactive_clients], on one
    item of [self.clients.items()]: the client object is mutated in
    place, the identifier is collected for the log. *)
Definition cleanup_item (timeout : Q) (now : Z)
    (acc : gmap string ClientInfo * list string) (item : string * ClientInfo)
    : gmap string ClientInfo * list string :=
  if timed_out timeout now item.2
  then (alter (set_status "offline") item.1 acc.1, acc.2 ++ [item.1])
  else acc.

(** [cleanup_inactive_clients]. *)
Definition cleanup_inactive_clients (timeout : Q) (now : Z) (st : ClientManager)
    : ClientManager :=
  let '(m, _) := foldl (cleanup_item timeout now) (clients st, [])
                   (map_to_list (clients st)) in
  with_clients m st.

(* ------------------------------------------------------------------ *)
(** ** Sequences of calls *)

Inductive Op :=
| OpRegister (cid addr host : string) (t_seen t_conn : Z)
| OpHeartbeat (cid : string) (now : Z)
| OpAddCommand (cid : string) (cmd : Command)
| OpGetCommand (cid : string)
| OpCleanup (timeout : Q) (now : Z)
| OpMonitor (cpu mem : option Q).

Inductive Result :=
| RBool (b : bool)
| RCommand (c : option Command)
| RNone.

Definition step (st : ClientManager) (o : Op) : Result * ClientManager :=
  match o with
  | OpRegister cid addr host t1 t2 =>
      let '(b, st') := register_client cid addr host t1 t2 st in (RBool b, st')
  | OpHeartbeat cid now =>
      let '(b, st') := update_heartbeat cid now st in (RBool b, st')
  | OpAddCommand cid cmd => (RNone, add_command cid cmd st)
  | OpGetCommand cid =>
      let '(c, st') := get_command cid st in (RCommand c, st')
  | OpCleanup timeout now => (RNone, cleanup_inactive_clients timeout now st)
  | OpMonitor cpu mem => (RNone, monitor cpu mem st)
  end.

(** The state after a sequence of calls. *)
Definition exec (st : ClientManager) (ops : list Op) : ClientManager :=
  foldl (λ s o, (step s o).2) st ops.

(** The results of a sequence of calls, in call order. *)
Fixpoint results (st : ClientManager) (ops : list Op) : list Result :=
  match ops with
  | [] => []
  | o :: ops' => (step st o).1 :: results (step st o).2 ops'
  end.

End Registry.

Arguments ClientManager : clear implicits.
Arguments Op : clear implicits.
Arguments Result : clear implicits.

(* ------------------------------------------------------------------ *)
(** ** Connection rate limiter *)

(** The fields of [ConnectionRateLimiter]. *)
Record ConnectionRateLimiter := mkConnectionRateLimiter {
  connection_times : list Q;
  max_connections : Z
}.

(** [ConnectionRateLimiter.__init__]. *)
Definition ConnectionRateLimiter_init (max_per_minute : Z) : ConnectionRateLimiter :=
  {| connection_times := []; max_connections := max_per_minute |}.

(** The comprehension [[t for t in self.connection_times if current_time - t < 60]]. *)
Fixpoint prune (current_time : Q) (ts : list Q) : list Q :=
  match ts with
  | [] => []
  | t :: ts' =>
      if Qlt_bool (current_time - t) 60
      then t :: prune current_time ts'
      else prune current_time ts'
  end.

(** [allow_connection]; [current_time] is the reading of [time.time()]. *)
Definition allow_connection (current_time : Q) (rl : ConnectionRateLimiter)
    : bool * ConnectionRateLimiter :=
  let kept := prune current_time (connection_times rl) in
  if Z.of_nat (length kept) <? max_connections rl
  then (true, {| connection_times := kept ++ [current_time];
                 max_connections := max_connections rl |})
  else (false, {| connection_times := kept;
                  max_connections := max_connections rl |}).

(* ------------------------------------------------------------------ *)
(** ** Notions used in the statements *)

(** The contribution of one record to the online count. *)
Definition online_weight (c : ClientInfo) : nat :=
  if decide (status c = "online") then 1%nat else 0%nat.

(** What the sweep does to one record. *)
Definition sweep_record (timeout : Q) (now : Z) (c : ClientInfo) : ClientInfo :=
  if timed_out timeout now c then set_status "offline" c else c.

(** The rejection condition of the admission policy, as a proposition. *)
Definition admission_rejected {Command : Type} (st : ClientManager Command) : Prop :=
  max_clients st ≤ Z.of_nat (online_count (clients st))
  ∨ (80 < cpu_usage (system_resources st))%Q
  ∨ (85 < memory_usage (system_resources st))%Q.

(** The calls of a run made of admissions only; the resource monitor
    thread keeps ticking in the background of any run. *)
Definition admit_or_monitor {Command : Type} (o : Op Command) : Prop :=
  match o with
  | OpRegister _ _ _ _ _ | OpMonitor _ _ => True
  | _ => False
  end.

(** A run in which the identifier is never registered. *)
Definition never_registers {Command : Type} (cid : string) (o : Op Command) : Prop :=
  match o with
  | OpRegister cid' _ _ _ _ => cid' ≠ cid
  | _ => True
  end.

(** A call that is neither a registration nor a heartbeat of the
    identifier. *)
Definition leaves_alone {Command : Type} (cid : string) (o : Op Command) : Prop :=
  match o with
  | OpRegister cid' _ _ _ _ => cid' ≠ cid
  | OpHeartbeat cid' _ => cid' ≠ cid
  | _ => True
  end.

(** The calls of a run made of admissions, sweeps and heartbeats. *)
Definition admit_sweep_touch {Command : Type} (o : Op Command) : Prop :=
  match o with
  | OpRegister _ _ _ _ _ | OpCleanup _ _ | OpHeartbeat _ _ => True
  | _ => False
  end.

(** Client identifiers for a run with as many clients as needed. *)
Definition client_name (i : nat) : string := "client-" +:+ pretty i.

(** A run that ends with more online clients than [n]: one client is
    admitted and times out, [n] others are admitted in its place, and
    then the first one sends a heartbeat. *)
Definition overbooking_run {Command : Type} (n : nat) : list (Op Command) :=
  [OpRegister (client_name 0) "10.0.0.1" "host" 0 0;
   OpCleanup 300%Q 301000000]
  ++ ((λ i, OpRegister (client_name i) "10.0.0.1" "host" 301000000 301000000)
        <$> seq 1 n)
  ++ [OpHeartbeat (client_name 0) 302000000].

(** The record of the first client of [overbooking_run] after the sweep. *)
Definition swept_first : ClientInfo :=
  set_status "offline" (ClientInfo_new (client_name 0) "10.0.0.1" "host" 0 0).

(** The queue of a client, empty when the client has none. *)
Definition queue_of {Command : Type} (cid : string) (st : ClientManager Command)
    : list Command :=
  default [] (commands_queue st !! cid).

(** [add_command] for each command of a list, in order. *)
Definition add_commands {Command : Type} (cid : string) (cmds : list Command)
    (st : ClientManager Command) : ClientManager Command :=
  foldl (λ s cmd, add_command cid cmd s) st cmds.

(** [n] calls of [get_command], with their results in call order. *)
Fixpoint get_commands {Command : Type} (cid : string) (n : nat)
    (st : ClientManager Command) : list (option Command) * ClientManager Command :=
  match n with
  | O => ([], st)
  | S n' =>
      let '(r, st1) := get_command cid st in
      let '(rs, st2) := get_commands cid n' st1 in
      (r :: rs, st2)
  end.

(** The queue under the policy in the words of the specification, by
    which a full queue loses its oldest entries: of everything
    enqueued, the newest [QUEUE_BOUND] entries remain. It is compared
    with [add_commands], which follows the code. *)
Definition drop_oldest_queue {Command : Type} (q cmds : list Command) : list Command :=
  drop (length (q ++ cmds) - QUEUE_BOUND) (q ++ cmds).

(** Every queue is within the bound. *)
Definition queues_bounded {Command : Type} (d : gmap string (list Command)) : Prop :=
  ∀ cid q, d !! cid = Some q → (length q ≤ QUEUE_BOUND)%nat.

(** Successive calls of [allow_connection] at the given clock readings,
    with their results in call order. *)
Fixpoint allow_connections (times : list Q) (rl : ConnectionRateLimiter)
    : list bool * ConnectionRateLimiter :=
  match times with
  | [] => ([], rl)
  | t :: times' =>
      let '(b, rl1) := allow_connection t rl in
      let '(bs, rl2) := allow_connections times' rl1 in
      (b :: bs, rl2)
  end.

(* ------------------------------------------------------------------ *)
(** ** Concrete managers *)

(** A fresh manager as [server.py] creates it, with command names as
    commands, and the same manager under CPU load. *)
Definition manager0 : ClientManager string := ClientManager_init 50 0.8%Q.

Definition manager_loaded : ClientManager string :=
  with_resources
    {| cpu_usage := 90%Q; memory_usage := 10%Q; active_connections := 0%nat |}
    manager0.

(** The manager after the registration of ["c1"] at time 0. *)
Definition manager_c1 : ClientManager string :=
  (register_client "c1" "10.0.0.1" "host" 0 0 manager0).2.


(* ------------------------------------------------------------------ *)
(** ** Aggregate status *)

(** The dictionary returned by [get_system_status]; the keys
    ['system_resources'] and ['max_clients'] carry the prefix
    [status_], their names being fields of the manager already. *)
Record SystemStatus := mkSystemStatus {
  active_clients : nat;
  total_clients : nat;
  total_commands_queued : nat;
  status_system_resources : SystemResources;
  status_max_clients : Z
}.

(** [get_system_status]. *)
Definition get_system_status {Command : Type} (st : ClientManager Command)
    : SystemStatus :=
  {| active_clients := online_count (clients st);
     total_clients := size (clients st);
     total_commands_queued :=
       sum_list (length <$> (map_to_list (commands_queue st)).*2);
     status_system_resources := system_resources st;
     status_max_clients := max_clients st |}.

(** The manager with another [resource_threshold]. *)
Definition with_threshold {Command : Type} (thr : Q) (st : ClientManager Command)
    : ClientManager Command :=
  {| clients := clients st; commands_queue := commands_queue st;
     max_clients := max_clients st;
     resource_threshold := thr;
     system_resources := system_resources st |}.

(** Every queue belongs to a registered client. *)
Definition queues_of_clients {Command : Type} (st : ClientManager Command) : Prop :=
  dom (commands_queue st) ⊆ dom (clients st).

(** Every record is stored under its own identifier. *)
Definition keyed_by_id (m : gmap string ClientInfo) : Prop :=
  ∀ cid c, m !! cid = Some c → client_id c = cid.

(** The rate limiter holds no more timestamps than it allows
    connections. *)
Definition within_limit (rl : ConnectionRateLimiter) : Prop :=
  (length (connection_times rl) ≤ Z.to_nat (max_connections rl))%nat.

(* ------------------------------------------------------------------ *)
(** ** The HTTP handlers

    A handler is a function of the parsed request, of the clock
    readings it takes and of the two global objects [client_manager]
    and [rate_limiter]. The request bodies are those the handlers
    expect: a JSON object whose fields, when present, are strings (the
    ['data'] of a command is any JSON value and stays abstract); a
    body that is not a JSON object is [None], and makes the handler
    raise inside its [try] block. Of a response, the HTTP status and
    the ['command'] field are modelled; the message texts are not. *)

(** Truth of an optional string, as [if not x] tests it: [None] and
    the empty string are false. *)
Definition truthy (s : option string) : bool :=
  match s with
  | Some s => negb (String.eqb s "")
  | None => false
  end.

Section Api.

(** The JSON values of command data, and the empty object [{}]. *)
Context {Payload : Type} (empty_payload : Payload).

(** The dictionary that [api_send_command] queues. ['timestamp'] is
    the [isoformat()] text of the clock reading; the reading itself
    stands for it. *)
Record CommandEntry := mkCommandEntry {
  command : string;
  data : Payload;
  timestamp : Z
}.

(** The module-level objects [client_manager] and [rate_limiter]. *)
Record Server := mkServer {
  client_manager : ClientManager CommandEntry;
  rate_limiter : ConnectionRateLimiter
}.

(** [client_manager = ClientManager(max_clients=50)] and
    [rate_limiter = ConnectionRateLimiter(max_connections_per_minute=100)]. *)
Definition Server_init : Server :=
  {| client_manager := ClientManager_init 50 0.8%Q;
     rate_limiter := ConnectionRateLimiter_init 100 |}.

Definition with_manager (cm : ClientManager CommandEntry) (sv : Server) : Server :=
  {| client_manager := cm; rate_limiter := rate_limiter sv |}.

Definition with_limiter (rl : ConnectionRateLimiter) (sv : Server) : Server :=
  {| client_manager := client_manager sv; rate_limiter := rl |}.

(** The JSON body of a registration. *)
Record RegisterBody := mkRegisterBody {
  body_client_id : option string;
  body_hostname : option string
}.

(** The JSON body of a command for a client. *)
Record CommandBody := mkCommandBody {
  body_command : option string;
  body_data : option Payload
}.

(** What a handler returns. *)
Inductive Response :=
| Success
| SuccessCommand (c : option CommandEntry)
| Error (code : nat).

(** The HTTP status of a response. *)
Definition http_status (r : Response) : nat :=
  match r with
  | Success | SuccessCommand _ => 200%nat
  | Error code => code
  end.

(** [api_register]: [t_rate] is the clock reading of the rate limiter,
    [t_seen] and [t_conn] are those of [register_client]. *)
Definition api_register (body : option RegisterBody) (remote_addr : string)
    (t_rate : Q) (t_seen t_conn : Z) (sv : Server) : Response * Server :=
  let '(allowed, rl) := allow_connection t_rate (rate_limiter sv) in
  let sv1 := with_limiter rl sv in
  if negb allowed then (Error 429, sv1)
  else
    match body with
    | None => (Error 500, sv1)
    | Some data =>
        let cid := body_client_id data in
        let hostname := default "Unknown" (body_hostname data) in
        if negb (truthy cid) then (Error 400, sv1)
        else
          let '(ok, cm) :=
            register_client (default "" cid) remote_addr hostname t_seen t_conn
              (client_manager sv1) in
          if ok then (Success, with_manager cm sv1)
          else (Error 503, with_manager cm sv1)
    end.

(** [api_heartbeat]. *)
Definition api_heartbeat (cid : string) (now : Z) (sv : Server)
    : Response * Server :=
  let '(ok, cm) := update_heartbeat cid now (client_manager sv) in
  if ok then
    let '(c, cm') := get_command cid cm in
    (SuccessCommand c, with_manager cm' sv)
  else (Error 404, with_manager cm sv).

(** [api_send_command]; [now] is the clock reading of the timestamp. *)
Definition api_send_command (cid : string) (body : option CommandBody) (now : Z)
    (sv : Server) : Response * Server :=
  match body with
  | None => (Error 500, sv)
  | Some data =>
      let cmd := body_command data in
      let command_data := default empty_payload (body_data data) in
      if negb (truthy cmd) then (Error 400, sv)
      else
        match clients (client_manager sv) !! cid with
        | None => (Error 404, sv)
        | Some _ =>
            (Success,
             with_manager
               (add_command cid
                  {| command := default "" cmd; data := command_data;
                     timestamp := now |}
                  (client_manager sv)) sv)
        end
  end.

(** [api_system_status]. *)
Definition api_system_status (sv : Server) : SystemStatus :=
  get_system_status (client_manager sv).

(** One pass of the loop of [background_tasks]: the sweep with its
    default timeout of 300 seconds, and whether the status line is
    logged. *)
Definition background_tasks (now : Z) (sv : Server) : bool * Server :=
  let cm := cleanup_inactive_clients 300 now (client_manager sv) in
  let status := get_system_status cm in
  ((0 <? active_clients status)%nat, with_manager cm sv).

(** The requests and background activity of the server. *)
Inductive Request :=
| ReqRegister (body : option RegisterBody) (remote_addr : string)
    (t_rate : Q) (t_seen t_conn : Z)
| ReqHeartbeat (cid : string) (now : Z)
| ReqSendCommand (cid : string) (body : option CommandBody) (now : Z)
| ReqBackground (now : Z)
| ReqMonitor (cpu mem : option Q).

(** What the server does with one request; background activity has no
    response. *)
Definition handle (sv : Server) (r : Request) : option Response * Server :=
  match r with
  | ReqRegister body remote_addr t_rate t_seen t_conn =>
      let '(resp, sv') := api_register body remote_addr t_rate t_seen t_conn sv in
      (Some resp, sv')
  | ReqHeartbeat cid now =>
      let '(resp, sv') := api_heartbeat cid now sv in (Some resp, sv')
  | ReqSendCommand cid body now =>
      let '(resp, sv') := api_send_command cid body now sv in (Some resp, sv')
  | ReqBackground now => (None, (background_tasks now sv).2)
  | ReqMonitor cpu mem => (None, with_manager (monitor cpu mem (client_manager sv)) sv)
  end.

(** The server after a sequence of requests. *)
Definition serve (sv : Server) (rs : list Request) : Server :=
  foldl (λ s r, (handle s r).2) sv rs.

(** The responses to a sequence of requests, in order. *)
Fixpoint responses (sv : Server) (rs : list Request) : list (option Response) :=
  match rs with
  | [] => []
  | r :: rs' => (handle sv r).1 :: responses (handle sv r).2 rs'
  end.

(** The calls on the manager that a request amounts to. *)
Definition manager_ops (sv : Server) (r : Request) : list (Op CommandEntry) :=
  match r with
  | ReqRegister body remote_addr t_rate t_seen t_conn =>
      if (allow_connection t_rate (rate_limiter sv)).1 then
        match body with
        | Some data =>
            if truthy (body_client_id data)
            then [OpRegister (default "" (body_client_id data)) remote_addr
                    (default "Unknown" (body_hostname data)) t_seen t_conn]
            else []
        | None => []
        end
      else []
  | ReqHeartbeat cid now =>
      match clients (client_manager sv) !! cid with
      | Some _ => [OpHeartbeat cid now; OpGetCommand cid]
      | None => [OpHeartbeat cid now]
      end
  | ReqSendCommand cid body now =>
      match body with
      | Some data =>
          if truthy (body_command data) then
            match clients (client_manager sv) !! cid with
            | Some _ =>
                [OpAddCommand cid
                   {| command := default "" (body_command data);
                      data := default empty_payload (body_data data);
                      timestamp := now |}]
            | None => []
            end
          else []
      | None => []
      end
  | ReqBackground now => [OpCleanup 300 now]
  | ReqMonitor cpu mem => [OpMonitor cpu mem]
  end.

End Api.

Arguments CommandEntry : clear implicits.
Arguments Server : clear implicits.
Arguments RegisterBody : clear implicits.
Arguments CommandBody : clear implicits.
Arguments Response : clear implicits.
Arguments Request : clear implicits.

(** A call that is not a pass of the resource monitor in which
    [psutil] delivers a CPU sample. *)
Definition no_sample {Command : Type} (o : Op Command) : Prop :=
  match o with
  | OpMonitor (Some _) _ => False
  | _ => True
  end.

(** The snapshot shows CPU above 80 or memory above 85. *)
Definition overloaded {Command : Type} (st : ClientManager Command) : Prop :=
  (80 < cpu_usage (system_resources st))%Q
  ∨ (85 < memory_usage (system_resources st))%Q.

(** The clock readings of one window: none a minute or more after
    another. *)
Definition one_window (t0 : Q) (times : list Q) : Prop :=
  Forall (λ t, (t0 <= t)%Q ∧ (t < t0 + 60)%Q) times.

Section Delivery.

Context {Payload : Type} (empty_payload : Payload).

(** The entry that [api_send_command] queues for a body received at a
    given time. *)
Definition entry_of (b : CommandBody Payload * Z) : CommandEntry Payload :=
  {| command := default "" (body_command b.1);
     data := default empty_payload (body_data b.1);
     timestamp := b.2 |}.

(** Commands sent to one client, one request for each body. *)
Definition send_requests (cid : string) (bodies : list (CommandBody Payload * Z))
    : list (Request Payload) :=
  (λ b, ReqSendCommand cid (Some b.1) b.2) <$> bodies.

(** Heartbeats of one client at the given times. *)
Definition heartbeat_requests (cid : string) (times : list Z)
    : list (Request Payload) :=
  (λ t, ReqHeartbeat cid t) <$> times.

End Delivery.

(* ------------------------------------------------------------------ *)
(** ** A concrete server *)

(** The server, with JSON texts as command data, after the
    registration of ["c1"] without a hostname at time 0. *)
Definition server_c1 : Server string :=
  (api_register (Some {| body_client_id := Some "c1"; body_hostname := None |})
     "10.0.0.1" 0%Q 0 0 Server_init).2.

(** A command body with a name and no data. *)
Definition named_body (name : string) : CommandBody string :=
  {| body_command := Some name; body_data := None |}.
(* ------------------------------------------------------------------ *)
(** ** Counting online clients *)


Lemma online_count_empty : online_count ∅ = 0%nat.
Proof. unfold online_count. by rewrite map_to_list_empty. Qed.

Lemma online_count_insert_fresh (m : gmap string ClientInfo) k c :
  m !! k = None →
  online_count (<[k:=c]> m) = (online_weight c + online_count m)%nat.
Proof.
  intros Hk. unfold online_count, online_weight.
  rewrite (map_to_list_insert m k c Hk). cbn [fmap list_fmap snd].
  rewrite filter_cons. by destruct (decide (status c = "online")).
Qed.

Lemma online_count_delete (m : gmap string ClientInfo) k c :
  m !! k = Some c →
  online_count m = (online_weight c + online_count (delete k m))%nat.
Proof.
  intros Hk. rewrite <- (insert_delete_id m k c Hk) at 1.
  apply online_count_insert_fresh, lookup_delete_eq.
Qed.

Lemma online_count_insert (m : gmap string ClientInfo) k c :
  online_count (<[k:=c]> m) = (online_weight c + online_count (delete k m))%nat.
Proof.
  rewrite <- insert_delete_eq.
  apply online_count_insert_fresh, lookup_delete_eq.
Qed.

Lemma online_count_delete_le (m : gmap string ClientInfo) k :
  (online_count (delete k m) ≤ online_count m)%nat.
Proof.
  destruct (m !! k) as [c|] eqn:Hk.
  - rewrite (online_count_delete m k c Hk). lia.
  - by rewrite delete_id.
Qed.

Lemma online_weight_le c : (online_weight c ≤ 1)%nat.
Proof. unfold online_weight. case_decide; lia. Qed.

Lemma online_count_insert_le (m : gmap string ClientInfo) k c :
  (online_count (<[k:=c]> m) ≤ S (online_count m))%nat.
Proof.
  rewrite online_count_insert.
  pose proof (online_weight_le c). pose proof (online_count_delete_le m k). lia.
Qed.

(** Overwriting a record: the old weight leaves, the new one enters. *)
Lemma online_count_replace (m : gmap string ClientInfo) k c0 c :
  m !! k = Some c0 →
  (online_count (<[k:=c]> m) + online_weight c0
   = online_count m + online_weight c)%nat.
Proof.
  intros Hk. rewrite online_count_insert, (online_count_delete m k c0 Hk). lia.
Qed.

(* ------------------------------------------------------------------ *)
(** ** The inactivity sweep as a map over the records *)


Lemma cleanup_fold_lookup timeout now (l : list (string * ClientInfo)) :
  ∀ (m0 : gmap string ClientInfo) (log : list string) (k : string),
  NoDup l.*1 →
  (∀ i c, (i, c) ∈ l → m0 !! i = Some c) →
  (foldl (cleanup_item timeout now) (m0, log) l).1 !! k
  = if decide (k ∈ l.*1) then sweep_record timeout now <$> m0 !! k else m0 !! k.
Proof.
  induction l as [|[i c] l IH]; intros m0 log k Hnd Hag.
  - cbn [foldl fst fmap list_fmap]. case_decide as Hk; [|done].
    by apply elem_of_nil in Hk.
  - cbn [fmap list_fmap fst] in Hnd. apply NoDup_cons in Hnd as [Hi Hnd].
    cbn [foldl]. unfold cleanup_item at 2. cbn [fst snd].
    assert (Hc : m0 !! i = Some c) by (apply Hag; left).
    destruct (timed_out timeout now c) eqn:Hto.
    + rewrite IH; [|done|].
      * cbn [fmap list_fmap fst].
        destruct (decide (k = i)) as [->|Hne].
        -- rewrite decide_False by done. rewrite decide_True by left.
           rewrite lookup_alter_eq, Hc. simpl. unfold sweep_record. by rewrite Hto.
        -- rewrite lookup_alter_ne by done.
           destruct (decide (k ∈ l.*1)) as [Hin|Hin].
           ++ rewrite decide_True; [done | by right].
           ++ rewrite decide_False; [done|]. by intros [?|?]%elem_of_cons.
      * intros j c' Hj. rewrite lookup_alter_ne.
        -- apply Hag. by right.
        -- intros ->. apply Hi. apply list_elem_of_fmap. by exists (j, c').
    + rewrite IH; [|done|].
      * cbn [fmap list_fmap fst].
        destruct (decide (k = i)) as [->|Hne].
        -- rewrite decide_False by done. rewrite decide_True by left.
           rewrite Hc. simpl. unfold sweep_record. by rewrite Hto.
        -- destruct (decide (k ∈ l.*1)) as [Hin|Hin].
           ++ rewrite decide_True; [done | by right].
           ++ rewrite decide_False; [done|]. by intros [?|?]%elem_of_cons.
      * intros j c' Hj. apply Hag. by right.
Qed.

Section RegistryFacts.
Context {Command : Type}.
Implicit Types st : ClientManager Command.

Lemma cleanup_inactive_clients_fmap timeout now st :
  cleanup_inactive_clients timeout now st
  = with_clients (sweep_record timeout now <$> clients st) st.
Proof.
  unfold cleanup_inactive_clients.
  destruct (foldl _ _ _) as [m log] eqn:Hf. f_equal.
  apply map_eq. intros k. rewrite lookup_fmap.
  change m with ((m, log).1). rewrite <- Hf.
  rewrite cleanup_fold_lookup.
  - case_decide as Hk; [done|].
    destruct (clients st !! k) as [c|] eqn:Hc; [|done].
    exfalso. apply Hk. apply list_elem_of_fmap. exists (k, c). split; [done|].
    by apply elem_of_map_to_list.
  - apply NoDup_fst_map_to_list.
  - intros i c. apply elem_of_map_to_list.
Qed.

Lemma Qgt_bool_true (x y : Q) : Qgt_bool x y = true ↔ (y < x)%Q.
Proof.
  unfold Qgt_bool. rewrite negb_true_iff, <- not_true_iff_false, Qle_bool_iff.
  split; [apply Qnot_le_lt | apply Qlt_not_le].
Qed.

Lemma Qgt_bool_false (x y : Q) : Qgt_bool x y = false ↔ (x <= y)%Q.
Proof. unfold Qgt_bool. by rewrite negb_false_iff, Qle_bool_iff. Qed.


Lemma can_accept_client_false st :
  can_accept_client st = false ↔ admission_rejected st.
Proof.
  unfold can_accept_client, admission_rejected.
  destruct (Z.geb_spec (Z.of_nat (online_count (clients st))) (max_clients st)) as [Hge|Hlt].
  - split; [intros _; left; lia | done].
  - destruct (Qgt_bool (cpu_usage _) 80) eqn:Hcpu; cbn [orb].
    + apply Qgt_bool_true in Hcpu. split; [intros _; right; by left | done].
    + apply Qgt_bool_false in Hcpu.
      destruct (Qgt_bool (memory_usage _) 85) eqn:Hmem.
      * apply Qgt_bool_true in Hmem. split; [intros _; right; by right | done].
      * apply Qgt_bool_false in Hmem. split; [done|].
        intros [?|[H|H]]; [lia | |]; exfalso; revert H; by apply Qle_not_lt.
Qed.

Lemma can_accept_client_true st :
  can_accept_client st = true ↔ ¬ admission_rejected st.
Proof.
  rewrite <- can_accept_client_false. by destruct (can_accept_client st).
Qed.

Lemma register_client_rejected cid addr host t1 t2 st :
  can_accept_client st = false →
  register_client cid addr host t1 t2 st = (false, st).
Proof. unfold register_client. by intros ->. Qed.

Lemma register_client_accepted cid addr host t1 t2 st :
  can_accept_client st = true →
  register_client cid addr host t1 t2 st
  = (true, with_clients (<[cid := ClientInfo_new cid addr host t1 t2]> (clients st)) st).
Proof. unfold register_client. by intros ->. Qed.

(** C1. [register_client] (admit) returns false and leaves the whole
    state unchanged when the number of online clients has reached
    [max_clients], or the resource snapshot shows [cpu_usage > 80] or
    [memory_usage > 85]; otherwise it returns true and stores, under the
    identifier, a record with status online whose last-seen and
    connection timestamps are the current clock readings, replacing any
    older record and touching nothing else. *)
Theorem register_client_admission st cid addr host t_seen t_conn :
  (admission_rejected st →
     register_client cid addr host t_seen t_conn st = (false, st))
  ∧ (¬ admission_rejected st →
     ∃ st', register_client cid addr host t_seen t_conn st = (true, st')
       ∧ clients st' !! cid
         = Some {| client_id := cid; ip := addr; hostname := host;
                   last_seen := t_seen; status := "online";
                   connection_time := t_conn;
                   resource_usage := 0%Q; commands_processed := 0 |}
       ∧ (∀ k, k ≠ cid → clients st' !! k = clients st !! k)
       ∧ commands_queue st' = commands_queue st
       ∧ max_clients st' = max_clients st
       ∧ resource_threshold st' = resource_threshold st
       ∧ system_resources st' = system_resources st).
Proof.
  split.
  - intros Hrej. by apply register_client_rejected, can_accept_client_false.
  - intros Hacc. apply can_accept_client_true in Hacc.
    eexists. split; [by apply register_client_accepted|].
    cbn. split; [by rewrite lookup_insert_eq|].
    split; [|done]. intros k Hk. by rewrite lookup_insert_ne.
Qed.

(** *** Heartbeat *)

Lemma update_heartbeat_unknown cid now st :
  clients st !! cid = None → update_heartbeat cid now st = (false, st).
Proof. unfold update_heartbeat. by intros ->. Qed.

Lemma update_heartbeat_known cid now st c :
  clients st !! cid = Some c →
  update_heartbeat cid now st
  = (true, with_clients
             (<[cid := set_status "online" (set_last_seen now c)]> (clients st)) st).
Proof. unfold update_heartbeat. by intros ->. Qed.

(** *** Sequences of calls *)

Lemma exec_app st ops1 ops2 :
  exec st (ops1 ++ ops2) = exec (exec st ops1) ops2.
Proof. apply foldl_app. Qed.

Lemma exec_cons st o ops : exec st (o :: ops) = exec (step st o).2 ops.
Proof. done. Qed.

Lemma exec_snoc st ops o : exec st (ops ++ [o]) = (step (exec st ops) o).2.
Proof. by rewrite exec_app. Qed.

(** *** What each operation leaves alone *)

Lemma add_command_clients cid cmd st : clients (add_command cid cmd st) = clients st.
Proof.
  unfold add_command. destruct (clients st !! cid); [|done].
  destruct (defaultdict_get _ _). by destruct (_ <? _)%nat.
Qed.

Lemma add_command_max_clients cid cmd st :
  max_clients (add_command cid cmd st) = max_clients st.
Proof.
  unfold add_command. destruct (clients st !! cid); [|done].
  destruct (defaultdict_get _ _). by destruct (_ <? _)%nat.
Qed.

Lemma add_command_resources cid cmd st :
  system_resources (add_command cid cmd st) = system_resources st.
Proof.
  unfold add_command. destruct (clients st !! cid); [|done].
  destruct (defaultdict_get _ _). by destruct (_ <? _)%nat.
Qed.

Lemma get_command_clients cid st : clients (get_command cid st).2 = clients st.
Proof. unfold get_command. by destruct (_ !! _) as [[|??]|]. Qed.

Lemma get_command_max_clients cid st :
  max_clients (get_command cid st).2 = max_clients st.
Proof. unfold get_command. by destruct (_ !! _) as [[|??]|]. Qed.

Lemma get_command_resources cid st :
  system_resources (get_command cid st).2 = system_resources st.
Proof. unfold get_command. by destruct (_ !! _) as [[|??]|]. Qed.

Lemma monitor_clients cpu mem st : clients (monitor cpu mem st) = clients st.
Proof. by destruct cpu, mem. Qed.

Lemma monitor_max_clients cpu mem st :
  max_clients (monitor cpu mem st) = max_clients st.
Proof. by destruct cpu, mem. Qed.

Lemma monitor_commands_queue cpu mem st :
  commands_queue (monitor cpu mem st) = commands_queue st.
Proof. by destruct cpu, mem. Qed.

Lemma register_client_commands_queue cid addr host t1 t2 st :
  commands_queue (register_client cid addr host t1 t2 st).2 = commands_queue st.
Proof. unfold register_client. by destruct (can_accept_client st). Qed.

Lemma update_heartbeat_commands_queue cid now st :
  commands_queue (update_heartbeat cid now st).2 = commands_queue st.
Proof. unfold update_heartbeat. by destruct (_ !! _). Qed.

Lemma cleanup_commands_queue timeout now st :
  commands_queue (cleanup_inactive_clients timeout now st) = commands_queue st.
Proof. by rewrite cleanup_inactive_clients_fmap. Qed.

(** Case analysis on a call, with the names of its arguments. *)
Ltac op_cases o :=
  destruct o as [cid addr host t1 t2|cid now|cid cmd|cid|timeout now|cpu mem].

(** [step] written with projections. *)
Lemma step_state st o :
  (step st o).2 =
  match o with
  | OpRegister cid addr host t1 t2 => (register_client cid addr host t1 t2 st).2
  | OpHeartbeat cid now => (update_heartbeat cid now st).2
  | OpAddCommand cid cmd => add_command cid cmd st
  | OpGetCommand cid => (get_command cid st).2
  | OpCleanup timeout now => cleanup_inactive_clients timeout now st
  | OpMonitor cpu mem => monitor cpu mem st
  end.
Proof.
  op_cases o; unfold step; try done.
  - by destruct (register_client _ _ _ _ _ _).
  - by destruct (update_heartbeat _ _ _).
  - by destruct (get_command _ _).
Qed.

Lemma step_result st o :
  (step st o).1 =
  match o with
  | OpRegister cid addr host t1 t2 => RBool (register_client cid addr host t1 t2 st).1
  | OpHeartbeat cid now => RBool (update_heartbeat cid now st).1
  | OpAddCommand cid cmd => RNone
  | OpGetCommand cid => RCommand (get_command cid st).1
  | OpCleanup timeout now => RNone
  | OpMonitor cpu mem => RNone
  end.
Proof.
  op_cases o; unfold step; try done.
  - by destruct (register_client _ _ _ _ _ _).
  - by destruct (update_heartbeat _ _ _).
  - by destruct (get_command _ _).
Qed.

(** Every operation on the clients map, by cases. *)
Lemma step_clients_cases st o :
  clients (step st o).2 = clients st
  ∨ (∃ cid addr host t1 t2,
       o = OpRegister cid addr host t1 t2 ∧ can_accept_client st = true
       ∧ clients (step st o).2
         = <[cid := ClientInfo_new cid addr host t1 t2]> (clients st))
  ∨ (∃ cid now c,
       o = OpHeartbeat cid now ∧ clients st !! cid = Some c
       ∧ clients (step st o).2
         = <[cid := set_status "online" (set_last_seen now c)]> (clients st))
  ∨ (∃ timeout now,
       o = OpCleanup timeout now
       ∧ clients (step st o).2 = sweep_record timeout now <$> clients st).
Proof.
  rewrite step_state.
  op_cases o.
  - unfold register_client. destruct (can_accept_client st) eqn:Hacc; cbn.
    + right; left. by exists cid, addr, host, t1, t2.
    + by left.
  - unfold update_heartbeat. destruct (clients st !! cid) as [c|] eqn:Hc; cbn.
    + right; right; left. by exists cid, now, c.
    + by left.
  - left. apply add_command_clients.
  - left. apply get_command_clients.
  - right; right; right. exists timeout, now.
    by rewrite cleanup_inactive_clients_fmap.
  - left. apply monitor_clients.
Qed.

Lemma step_max_clients st o : max_clients (step st o).2 = max_clients st.
Proof.
  rewrite step_state.
  op_cases o.
  - unfold register_client. by destruct (can_accept_client st).
  - unfold update_heartbeat. by destruct (_ !! _).
  - apply add_command_max_clients.
  - apply get_command_max_clients.
  - by rewrite cleanup_inactive_clients_fmap.
  - apply monitor_max_clients.
Qed.

Lemma exec_max_clients st ops : max_clients (exec st ops) = max_clients st.
Proof.
  revert st. induction ops as [|o ops IH]; intros st; [done|].
  by rewrite exec_cons, IH, step_max_clients.
Qed.

(** *** Capacity under admissions *)

Lemma can_accept_client_below st :
  can_accept_client st = true →
  Z.of_nat (online_count (clients st)) < max_clients st.
Proof.
  intros Hacc%can_accept_client_true. unfold admission_rejected in Hacc.
  destruct (Z.lt_ge_cases (Z.of_nat (online_count (clients st))) (max_clients st));
    [done|]. exfalso. apply Hacc. by left.
Qed.

Lemma step_admit_bound st o :
  admit_or_monitor o →
  Z.of_nat (online_count (clients st)) ≤ max_clients st →
  Z.of_nat (online_count (clients (step st o).2)) ≤ max_clients st.
Proof.
  intros Ho Hle.
  destruct (step_clients_cases st o)
    as [->|[(cid&addr&host&t1&t2&->&Hacc&->)|[(cid&now&c&->&_)|(timeout&now&->&_)]]];
    [done| |done|done].
  apply can_accept_client_below in Hacc.
  pose proof (online_count_insert_le (clients st) cid
                (ClientInfo_new cid addr host t1 t2)). lia.
Qed.

Lemma step_admit_full st o :
  admit_or_monitor o →
  max_clients st ≤ Z.of_nat (online_count (clients st)) →
  clients (step st o).2 = clients st
  ∧ (∀ cid addr host t1 t2,
       o = OpRegister cid addr host t1 t2 → (step st o).1 = RBool false).
Proof.
  intros Ho Hfull.
  assert (Hrej : can_accept_client st = false)
    by (apply can_accept_client_false; by left).
  op_cases o; try done.
  - rewrite step_state, step_result, register_client_rejected by done.
    split; [done|]. by intros ?????.
  - rewrite step_state, monitor_clients. split; [done|]. by intros ?????.
Qed.

Lemma exec_admit_bound st ops :
  Forall admit_or_monitor ops →
  Z.of_nat (online_count (clients st)) ≤ max_clients st →
  Z.of_nat (online_count (clients (exec st ops))) ≤ max_clients st.
Proof.
  intros Hops. revert st. induction Hops as [|o ops Ho _ IH]; intros st Hle; [done|].
  rewrite exec_cons. rewrite <- (step_max_clients st o).
  apply IH. rewrite step_max_clients. by apply step_admit_bound.
Qed.

Lemma results_admit_full st ops :
  Forall admit_or_monitor ops →
  max_clients st ≤ Z.of_nat (online_count (clients st)) →
  ∀ i cid addr host t1 t2,
    ops !! i = Some (OpRegister cid addr host t1 t2) →
    results st ops !! i = Some (RBool false).
Proof.
  intros Hops. revert st. induction Hops as [|o ops Ho _ IH]; intros st Hfull i;
    [done|].
  destruct (step_admit_full st o Ho Hfull) as [Hcl Hres].
  destruct i as [|i]; cbn [results]; intros cid addr host t1 t2 Hi.
  - cbn in Hi. injection Hi as ->. cbn. f_equal. by eapply Hres.
  - cbn in Hi |- *. eapply IH; [|done].
    by rewrite Hcl, step_max_clients.
Qed.

(** C2. In a run made of admissions only that starts from an empty
    registry (with a capacity [max_clients] that is not negative), the
    number of online clients never exceeds [max_clients] at any point
    of the run, and from the point where [max_clients] clients are
    online every later [register_client] call returns false. *)
Theorem admit_only_capacity st0 ops :
  clients st0 = ∅ →
  0 ≤ max_clients st0 →
  Forall admit_or_monitor ops →
  ∀ pre post, ops = pre ++ post →
    Z.of_nat (online_count (clients (exec st0 pre))) ≤ max_clients st0
    ∧ (Z.of_nat (online_count (clients (exec st0 pre))) = max_clients st0 →
       ∀ i cid addr host t1 t2,
         post !! i = Some (OpRegister cid addr host t1 t2) →
         results (exec st0 pre) post !! i = Some (RBool false)).
Proof.
  intros Hempty Hmax Hops pre post ->.
  apply Forall_app in Hops as [Hpre Hpost].
  split.
  - apply exec_admit_bound; [done|]. rewrite Hempty, online_count_empty. lia.
  - intros Hfull. apply results_admit_full; [done|].
    rewrite exec_max_clients. lia.
Qed.

(** *** The inactivity sweep *)

Lemma timed_out_true timeout now c :
  timed_out timeout now c = true
  ↔ (timeout < total_seconds (now - last_seen c))%Q.
Proof. apply Qgt_bool_true. Qed.

Lemma timed_out_false timeout now c :
  timed_out timeout now c = false
  ↔ (total_seconds (now - last_seen c) <= timeout)%Q.
Proof. apply Qgt_bool_false. Qed.

Lemma sweep_record_idemp timeout now c :
  sweep_record timeout now (sweep_record timeout now c)
  = sweep_record timeout now c.
Proof.
  unfold sweep_record. destruct (timed_out timeout now c) eqn:Hto; [|by rewrite Hto].
  by replace (timed_out timeout now (set_status "offline" c)) with true.
Qed.

(** C9. [cleanup_inactive_clients] sets the status to offline for
    exactly the clients whose [now - last_seen] exceeds the timeout and
    leaves every other record as it is; it changes no other field of a
    record, neither removes nor adds a record, changes no command queue
    nor any other part of the state, and running it again with the same
    clock changes nothing. *)
Theorem cleanup_inactive_clients_sweep timeout now st :
  let st' := cleanup_inactive_clients timeout now st in
  (∀ cid c, clients st !! cid = Some c →
     ((timeout < total_seconds (now - last_seen c))%Q →
        clients st' !! cid
        = Some {| client_id := client_id c; ip := ip c; hostname := hostname c;
                  last_seen := last_seen c; status := "offline";
                  connection_time := connection_time c;
                  resource_usage := resource_usage c;
                  commands_processed := commands_processed c |})
     ∧ ((total_seconds (now - last_seen c) <= timeout)%Q →
        clients st' !! cid = Some c))
  ∧ dom (clients st') = dom (clients st)
  ∧ commands_queue st' = commands_queue st
  ∧ max_clients st' = max_clients st
  ∧ resource_threshold st' = resource_threshold st
  ∧ system_resources st' = system_resources st
  ∧ cleanup_inactive_clients timeout now st' = st'.
Proof.
  cbn zeta. rewrite !cleanup_inactive_clients_fmap. cbn.
  split; [|split; [apply dom_fmap_L|]].
  - intros cid c Hc. rewrite lookup_fmap, Hc. unfold sweep_record. cbn.
    split.
    + intros Hto%timed_out_true. by rewrite Hto.
    + intros Hto%timed_out_false. by rewrite Hto.
  - repeat (split; [done|]).
    unfold with_clients; cbn. f_equal.
    rewrite <- map_fmap_compose. apply map_fmap_ext.
    intros k c _. apply sweep_record_idemp.
Qed.

(** *** Heartbeats *)

Lemma step_never_registers cid st o :
  never_registers cid o → clients st !! cid = None →
  clients (step st o).2 !! cid = None.
Proof.
  intros Ho Hnone.
  destruct (step_clients_cases st o)
    as [->|[(k&addr&host&t1&t2&->&_&->)|[(k&now&c&->&Hk&->)|(timeout&now&->&->)]]].
  - done.
  - cbn in Ho. by rewrite lookup_insert_ne.
  - rewrite lookup_insert_ne; [done|]. intros ->. congruence.
  - by rewrite lookup_fmap, Hnone.
Qed.

Lemma exec_never_registers cid st ops :
  Forall (never_registers cid) ops → clients st !! cid = None →
  clients (exec st ops) !! cid = None.
Proof.
  intros Hops. revert st. induction Hops as [|o ops Ho _ IH]; intros st Hnone;
    [done|].
  rewrite exec_cons. by apply IH, step_never_registers.
Qed.

(** C10. [update_heartbeat] on an identifier without a record returns
    false and changes nothing, so no record is created; this is the
    case after any run from the initial state in which the identifier
    was never registered. On an identifier with a record it returns
    true, sets that record's [last_seen] to the current time and its
    status to online, and changes nothing else. *)
Theorem update_heartbeat_touch cid now st :
  (clients st !! cid = None → update_heartbeat cid now st = (false, st))
  ∧ (∀ maxc thr ops,
       st = exec (ClientManager_init maxc thr) ops →
       Forall (never_registers cid) ops →
       update_heartbeat cid now st = (false, st))
  ∧ (∀ c, clients st !! cid = Some c →
       ∃ st', update_heartbeat cid now st = (true, st')
         ∧ clients st' !! cid
           = Some {| client_id := client_id c; ip := ip c; hostname := hostname c;
                     last_seen := now; status := "online";
                     connection_time := connection_time c;
                     resource_usage := resource_usage c;
                     commands_processed := commands_processed c |}
         ∧ (∀ k, k ≠ cid → clients st' !! k = clients st !! k)
         ∧ commands_queue st' = commands_queue st
         ∧ max_clients st' = max_clients st
         ∧ resource_threshold st' = resource_threshold st
         ∧ system_resources st' = system_resources st).
Proof.
  split; [apply update_heartbeat_unknown|]. split.
  - intros maxc thr ops -> Hops. apply update_heartbeat_unknown.
    by apply exec_never_registers.
  - intros c Hc. eexists. split; [by apply update_heartbeat_known|].
    cbn. split; [by rewrite lookup_insert_eq|].
    split; [|done]. intros k Hk. by rewrite lookup_insert_ne.
Qed.

(** *** A record between two heartbeats *)

Lemma sweep_record_set_status timeout now c :
  ∃ s, sweep_record timeout now c = set_status s c.
Proof.
  unfold sweep_record. destruct (timed_out timeout now c).
  - by exists "offline".
  - exists (status c). by destruct c.
Qed.

Lemma step_leaves_alone cid st o s c :
  leaves_alone cid o →
  clients st !! cid = Some (set_status s c) →
  ∃ s', clients (step st o).2 !! cid = Some (set_status s' c).
Proof.
  intros Ho Hc.
  destruct (step_clients_cases st o)
    as [->|[(k&addr&host&t1&t2&->&_&->)|[(k&now&c'&->&Hk&->)|(timeout&now&->&->)]]].
  - by exists s.
  - cbn in Ho. exists s. by rewrite lookup_insert_ne.
  - cbn in Ho. exists s. by rewrite lookup_insert_ne.
  - rewrite lookup_fmap, Hc. cbn.
    destruct (sweep_record_set_status timeout now (set_status s c)) as [s' ->].
    by exists s'.
Qed.

Lemma exec_leaves_alone cid st ops s c :
  Forall (leaves_alone cid) ops →
  clients st !! cid = Some (set_status s c) →
  ∃ s', clients (exec st ops) !! cid = Some (set_status s' c).
Proof.
  intros Hops. revert st s. induction Hops as [|o ops Ho _ IH]; intros st s Hc.
  - by exists s.
  - rewrite exec_cons.
    destruct (step_leaves_alone cid st o s c Ho Hc) as [s1 H1]. by eapply IH.
Qed.

(** C7. After a successful [register_client] of an identifier and any
    calls that neither register it again nor send its heartbeat, a
    sweep whose clock is more than the timeout past the registration
    sets the record's status to offline; a following [update_heartbeat]
    returns true and sets the status back to online in the same record:
    no record is added, and [connection_time] and the other fields of
    the registration are as they were, only [last_seen] is the time of
    the heartbeat. *)
Theorem sweep_then_heartbeat st cid addr host t_seen t_conn mid timeout now now' :
  ¬ admission_rejected st →
  Forall (leaves_alone cid) mid →
  (timeout < total_seconds (now - t_seen))%Q →
  let admitted := register_client cid addr host t_seen t_conn st in
  let swept := cleanup_inactive_clients timeout now (exec admitted.2 mid) in
  let touched := update_heartbeat cid now' swept in
  admitted.1 = true
  ∧ clients swept !! cid
    = Some {| client_id := cid; ip := addr; hostname := host;
              last_seen := t_seen; status := "offline";
              connection_time := t_conn;
              resource_usage := 0%Q; commands_processed := 0 |}
  ∧ touched.1 = true
  ∧ clients touched.2 !! cid
    = Some {| client_id := cid; ip := addr; hostname := host;
              last_seen := now'; status := "online";
              connection_time := t_conn;
              resource_usage := 0%Q; commands_processed := 0 |}
  ∧ dom (clients touched.2) = dom (clients swept).
Proof.
  intros Hacc%can_accept_client_true Hmid Hto. cbn zeta.
  rewrite (register_client_accepted _ _ _ _ _ _ Hacc). cbn [fst snd].
  split; [done|].
  set (c0 := ClientInfo_new cid addr host t_seen t_conn).
  destruct (exec_leaves_alone cid
              (with_clients (<[cid:=c0]> (clients st)) st) mid "online" c0 Hmid)
    as [s Hs].
  { cbn. by rewrite lookup_insert_eq. }
  rewrite cleanup_inactive_clients_fmap.
  set (st1 := exec _ mid) in *.
  assert (Hswept : (sweep_record timeout now <$> clients st1) !! cid
                   = Some (set_status "offline" c0)).
  { rewrite lookup_fmap, Hs. cbn. unfold sweep_record.
    replace (timed_out timeout now (set_status s c0)) with true; [done|].
    symmetry. by apply timed_out_true. }
  split; [exact Hswept|].
  unfold update_heartbeat. cbn [clients with_clients]. rewrite Hswept. cbn.
  split; [done|]. split; [by rewrite lookup_insert_eq|].
  rewrite dom_insert_L. apply elem_of_dom_2 in Hswept.
  by apply subseteq_union_1_L, singleton_subseteq_l.
Qed.

(** *** Heartbeats and capacity *)

Lemma client_name_inj i j : client_name i = client_name j → i = j.
Proof.
  unfold client_name. by intros H%(inj (String.app "client-"))%(inj pretty).
Qed.

Lemma register_client_fresh_count cid addr host t1 t2 st :
  can_accept_client st = true →
  clients st !! cid = None →
  online_count (clients (register_client cid addr host t1 t2 st).2)
  = S (online_count (clients st)).
Proof.
  intros Hacc Hfresh. rewrite register_client_accepted by done. cbn.
  by rewrite online_count_insert_fresh.
Qed.

Lemma update_heartbeat_offline_count cid now st c :
  clients st !! cid = Some c →
  status c ≠ "online" →
  online_count (clients (update_heartbeat cid now st).2)
  = S (online_count (clients st)).
Proof.
  intros Hc Hoff. rewrite (update_heartbeat_known _ _ _ _ Hc). cbn.
  pose proof (online_count_replace (clients st) cid c
                (set_status "online" (set_last_seen now c)) Hc) as Hrep.
  unfold online_weight in Hrep. cbn in Hrep.
  rewrite decide_False, decide_True in Hrep by done. lia.
Qed.

(** The state of [overbooking_run n] after the first admission, the
    sweep and [k] of the [n] further admissions. *)
Lemma overbooking_run_admissions (n : nat) thr (k : nat) :
  (1 ≤ n)%nat →
  (k ≤ n)%nat →
  let st := exec (ClientManager_init (Command:=Command) (Z.of_nat n) thr)
              ([OpRegister (client_name 0) "10.0.0.1" "host" 0 0;
                OpCleanup 300%Q 301000000]
               ++ ((λ i, OpRegister (client_name i) "10.0.0.1" "host"
                           301000000 301000000) <$> seq 1 k)) in
  max_clients st = Z.of_nat n
  ∧ cpu_usage (system_resources st) = 0%Q
  ∧ memory_usage (system_resources st) = 0%Q
  ∧ online_count (clients st) = k
  ∧ clients st !! client_name 0 = Some swept_first
  ∧ (∀ j, (k < j)%nat → clients st !! client_name j = None).
Proof.
  cbn zeta. intros Hn. induction k as [|k IH]; intros Hk.
  - cbn [seq fmap list_fmap app]. unfold exec. cbn [foldl].
    rewrite !step_state. rewrite cleanup_inactive_clients_fmap.
    rewrite register_client_accepted.
    2:{ apply can_accept_client_true. unfold admission_rejected. cbn.
        rewrite online_count_empty. intros [?|[?|?]]; [lia| |]; done. }
    cbn. rewrite fmap_insert, fmap_empty.
    replace (sweep_record 300 301000000
               (ClientInfo_new (client_name 0) "10.0.0.1" "host" 0 0))
      with swept_first by done.
    do 3 (split; [done|]). split; [|split].
    + rewrite online_count_insert_fresh by done. by rewrite online_count_empty.
    + by rewrite lookup_insert_eq.
    + intros j Hj. rewrite lookup_insert_ne; [done|].
      intros ?%client_name_inj. lia.
  - destruct IH as (Hmax & Hcpu & Hmem & Hcount & Hfirst & Hfresh); [lia|].
    rewrite seq_S, fmap_app, app_assoc. cbn [fmap list_fmap].
    rewrite exec_snoc, step_state.
    set (st := exec _ _) in *.
    assert (Hacc : can_accept_client st = true).
    { apply can_accept_client_true. unfold admission_rejected.
      rewrite Hmax, Hcount, Hcpu, Hmem. intros [?|[?|?]]; [lia| |]; done. }
    rewrite register_client_fresh_count by (done || apply Hfresh; lia).
    rewrite register_client_accepted by done.
    cbn [fst snd clients max_clients system_resources with_clients].
    do 3 (split; [done|]). split; [|split].
    + by rewrite Hcount.
    + rewrite lookup_insert_ne; [done|]. intros ?%client_name_inj. lia.
    + intros j Hj. rewrite lookup_insert_ne; [apply Hfresh; lia|].
      intros ?%client_name_inj. lia.
Qed.

Lemma overbooking_run_count (n : nat) thr :
  (1 ≤ n)%nat →
  online_count
    (clients (exec (ClientManager_init (Command:=Command) (Z.of_nat n) thr)
                (overbooking_run n)))
  = S n.
Proof.
  intros Hn. unfold overbooking_run. rewrite app_assoc, exec_snoc, step_state.
  destruct (overbooking_run_admissions n thr n Hn (le_n n))
    as (_ & _ & _ & Hcount & Hfirst & _).
  rewrite (update_heartbeat_offline_count _ _ _ _ Hfirst) by done.
  by rewrite Hcount.
Qed.

Lemma overbooking_run_ops (n : nat) :
  Forall (admit_sweep_touch (Command:=Command)) (overbooking_run n).
Proof.
  unfold overbooking_run. repeat (apply Forall_cons; split; [done|]).
  apply Forall_app. split.
  - apply Forall_fmap, Forall_forall. by intros.
  - by apply Forall_cons.
Qed.

(** C3. [update_heartbeat] sets the status of a registered client to
    online whatever the state is, in particular when the admission
    check of that state rejects; and for every capacity [n >= 1] there
    is a run of admissions, sweeps and heartbeats from the initial
    state after which more than [max_clients] clients are online. *)
Theorem heartbeat_exceeds_capacity :
  (∀ st cid now c,
     clients st !! cid = Some c →
     (update_heartbeat cid now st).1 = true
     ∧ status <$> clients (update_heartbeat cid now st).2 !! cid = Some "online")
  ∧ (∀ (n : nat) thr,
       (1 ≤ n)%nat →
       ∃ ops : list (Op Command),
         Forall admit_sweep_touch ops
         ∧ max_clients (exec (ClientManager_init (Z.of_nat n) thr) ops)
           < Z.of_nat (online_count
                         (clients (exec (ClientManager_init (Z.of_nat n) thr) ops)))).
Proof.
  split.
  - intros st cid now c Hc. rewrite (update_heartbeat_known _ _ _ _ Hc). cbn.
    split; [done|]. by rewrite lookup_insert_eq.
  - intros n thr Hn. exists (overbooking_run n).
    split; [apply overbooking_run_ops|].
    rewrite exec_max_clients, overbooking_run_count by done. cbn. lia.
Qed.

(** *** Command queues *)

Lemma with_queues_id st : with_queues (commands_queue st) st = st.
Proof. by destruct st. Qed.

(** [add_command] on the queues map, for a registered client. *)
Lemma add_command_registered cid cmd st c :
  clients st !! cid = Some c →
  add_command cid cmd st
  = if (length (queue_of cid st) <? QUEUE_BOUND)%nat
    then with_queues (<[cid := queue_of cid st ++ [cmd]]> (commands_queue st)) st
    else st.
Proof.
  intros Hc. unfold add_command, defaultdict_get, queue_of. rewrite Hc.
  destruct (commands_queue st !! cid) as [q|] eqn:Hq; cbn [default from_option id].
  - destruct (length q <? QUEUE_BOUND)%nat; [done | apply with_queues_id].
  - cbn. by rewrite insert_insert_eq.
Qed.

Lemma add_command_unregistered cid cmd st :
  clients st !! cid = None → add_command cid cmd st = st.
Proof. unfold add_command. by intros ->. Qed.

Lemma queue_of_insert cid q (d : gmap string (list Command)) st :
  queue_of cid (with_queues (<[cid := q]> d) st) = q.
Proof. unfold queue_of. cbn. by rewrite lookup_insert_eq. Qed.

Lemma add_command_queue_of cid cmd st c :
  clients st !! cid = Some c →
  queue_of cid (add_command cid cmd st)
  = if (length (queue_of cid st) <? QUEUE_BOUND)%nat
    then queue_of cid st ++ [cmd] else queue_of cid st.
Proof.
  intros Hc. rewrite (add_command_registered _ _ _ _ Hc).
  destruct (_ <? _)%nat; [apply queue_of_insert | done].
Qed.

Lemma add_commands_clients cid cmds st :
  clients (add_commands cid cmds st) = clients st.
Proof.
  revert st. induction cmds as [|cmd cmds IH]; intros st; [done|].
  unfold add_commands in *. cbn [foldl]. by rewrite IH, add_command_clients.
Qed.

Lemma add_commands_cons cid cmd cmds st :
  add_commands cid (cmd :: cmds) st = add_commands cid cmds (add_command cid cmd st).
Proof. done. Qed.

(** Of the commands sent to a registered client, the first ones fill
    the room left in the queue and the later ones are dropped. *)
Lemma add_commands_queue_of cid cmds st c :
  clients st !! cid = Some c →
  (length (queue_of cid st) ≤ QUEUE_BOUND)%nat →
  queue_of cid (add_commands cid cmds st)
  = queue_of cid st ++ take (QUEUE_BOUND - length (queue_of cid st)) cmds.
Proof.
  revert st. induction cmds as [|cmd cmds IH]; intros st Hc Hlen.
  - cbn. by rewrite take_nil, app_nil_r.
  - rewrite add_commands_cons.
    assert (Hc' : clients (add_command cid cmd st) !! cid = Some c)
      by (by rewrite add_command_clients).
    pose proof (add_command_queue_of cid cmd st c Hc) as Hq.
    destruct (Nat.ltb_spec (length (queue_of cid st)) QUEUE_BOUND) as [Hlt|Hge].
    + rewrite IH by (done || rewrite Hq, length_app; cbn; lia).
      rewrite Hq, length_app, <- app_assoc. cbn [length app].
      replace (QUEUE_BOUND - length (queue_of cid st))%nat
        with (S (QUEUE_BOUND - (length (queue_of cid st) + 1)))%nat by lia.
      done.
    + rewrite IH by (done || rewrite Hq; lia). rewrite Hq.
      by replace (QUEUE_BOUND - length (queue_of cid st))%nat with 0%nat by lia.
Qed.

Lemma add_commands_full cid cmds st c :
  clients st !! cid = Some c →
  length (queue_of cid st) = QUEUE_BOUND →
  add_commands cid cmds st = st.
Proof.
  intros Hc Hfull. induction cmds as [|cmd cmds IH]; [done|].
  rewrite add_commands_cons, (add_command_registered _ _ _ _ Hc), Hfull.
  by rewrite Nat.ltb_irrefl.
Qed.

(** [get_command] on a queue that is present. *)
Lemma get_command_queue cid st q :
  commands_queue st !! cid = Some q →
  get_command cid st
  = (head q, with_queues (<[cid := tail q]> (commands_queue st)) st).
Proof.
  intros Hq. unfold get_command. rewrite Hq. destruct q as [|cmd q]; [|done].
  cbn. by rewrite insert_id, with_queues_id.
Qed.

Lemma get_command_absent cid st :
  commands_queue st !! cid = None → get_command cid st = (None, st).
Proof. unfold get_command. by intros ->. Qed.

(** Dequeuing [n] times yields the queue from its head, then nothing. *)
Lemma get_commands_queue cid n st q :
  commands_queue st !! cid = Some q →
  get_commands cid n st
  = ((Some <$> take n q) ++ replicate (n - length q) None,
     with_queues (<[cid := drop n q]> (commands_queue st)) st).
Proof.
  revert st q. induction n as [|n IH]; intros st q Hq.
  - cbn. by rewrite drop_0, insert_id, with_queues_id.
  - cbn [get_commands]. rewrite (get_command_queue _ _ _ Hq).
    rewrite (IH _ (tail q)) by (cbn; by rewrite lookup_insert_eq).
    cbn [commands_queue with_queues]. rewrite insert_insert_eq.
    destruct q as [|cmd q]; cbn; [|done].
    by rewrite take_nil, drop_nil, Nat.sub_0_r.
Qed.

Lemma get_commands_absent cid n st :
  commands_queue st !! cid = None →
  get_commands cid n st = (replicate n None, st).
Proof.
  intros Hq. induction n as [|n IH]; [done|].
  cbn [get_commands]. by rewrite (get_command_absent _ _ Hq), IH.
Qed.

Lemma get_commands_queue_of cid n st :
  (get_commands cid n st).1
  = (Some <$> take n (queue_of cid st))
    ++ replicate (n - length (queue_of cid st)) None.
Proof.
  unfold queue_of. destruct (commands_queue st !! cid) as [q|] eqn:Hq.
  - by rewrite (get_commands_queue _ _ _ _ Hq).
  - rewrite (get_commands_absent _ _ _ Hq). cbn.
    by rewrite take_nil, Nat.sub_0_r.
Qed.

(** C4, as the code has it. For a registered client, commands sent
    beyond the bound of 10 are dropped without any other effect, and
    the ones dropped are the newest: of the commands sent, the earliest
    fill the room left in the queue and every later one is lost. The
    queue length reaches 10 and stays there, a queue at the bound is
    left unchanged by any further commands, and dequeuing yields the
    surviving entries, oldest first, and then no command. *)
Theorem enqueue_beyond_bound st cid c cmds :
  clients st !! cid = Some c →
  (length (queue_of cid st) ≤ 10)%nat →
  let st' := add_commands cid cmds st in
  queue_of cid st'
  = queue_of cid st ++ take (10 - length (queue_of cid st)) cmds
  ∧ ((10 ≤ length (queue_of cid st) + length cmds)%nat →
       length (queue_of cid st') = 10%nat)
  ∧ (length (queue_of cid st) = 10%nat → st' = st)
  ∧ (∀ n, (get_commands cid n st').1
          = (Some <$> take n (queue_of cid st'))
            ++ replicate (n - length (queue_of cid st')) None).
Proof.
  intros Hc Hlen. cbn zeta.
  pose proof (add_commands_queue_of cid cmds st c Hc Hlen) as Hq.
  change QUEUE_BOUND with 10%nat in Hq.
  split; [done|]. split; [|split].
  - intros Hmany. rewrite Hq, length_app, length_take. lia.
  - intros Hfull. by eapply add_commands_full.
  - intros n. apply get_commands_queue_of.
Qed.

Lemma add_command_queues_bounded cid cmd st :
  queues_bounded (commands_queue st) →
  queues_bounded (commands_queue (add_command cid cmd st)).
Proof.
  intros Hb. destruct (clients st !! cid) as [c|] eqn:Hc.
  - rewrite (add_command_registered _ _ _ _ Hc).
    destruct (Nat.ltb_spec (length (queue_of cid st)) QUEUE_BOUND) as [Hlt|Hge];
      [|done].
    intros k q. cbn. destruct (decide (k = cid)) as [->|Hne].
    + rewrite lookup_insert_eq. intros [= <-]. rewrite length_app. cbn. lia.
    + rewrite lookup_insert_ne by done. apply Hb.
  - by rewrite add_command_unregistered.
Qed.

Lemma get_command_queues_bounded cid st :
  queues_bounded (commands_queue st) →
  queues_bounded (commands_queue (get_command cid st).2).
Proof.
  intros Hb. destruct (commands_queue st !! cid) as [q|] eqn:Hq.
  - rewrite (get_command_queue _ _ _ Hq). cbn. intros k q'.
    destruct (decide (k = cid)) as [->|Hne].
    + rewrite lookup_insert_eq. intros [= <-].
      pose proof (Hb cid q Hq). destruct q; cbn in *; lia.
    + rewrite lookup_insert_ne by done. apply Hb.
  - by rewrite get_command_absent.
Qed.

Lemma step_queues_bounded st o :
  queues_bounded (commands_queue st) →
  queues_bounded (commands_queue (step st o).2).
Proof.
  intros Hb. rewrite step_state.
  op_cases o.
  - by rewrite register_client_commands_queue.
  - by rewrite update_heartbeat_commands_queue.
  - by apply add_command_queues_bounded.
  - by apply get_command_queues_bounded.
  - by rewrite cleanup_commands_queue.
  - by rewrite monitor_commands_queue.
Qed.

Lemma exec_queues_bounded st ops :
  queues_bounded (commands_queue st) →
  queues_bounded (commands_queue (exec st ops)).
Proof.
  revert st. induction ops as [|o ops IH]; intros st Hb; [done|].
  rewrite exec_cons. by apply IH, step_queues_bounded.
Qed.

(** C5. After any sequence of calls from the initial state, every
    client's command queue holds at most 10 commands. [add_command]
    appends to the queue of a registered client only when it holds
    fewer than 10; at 10 the command is dropped and the state is
    unchanged. *)
Theorem command_queue_bounded :
  (∀ maxc thr (ops : list (Op Command)) cid q,
     commands_queue (exec (ClientManager_init maxc thr) ops) !! cid = Some q →
     (length q ≤ 10)%nat)
  ∧ (∀ st cid cmd c,
       clients st !! cid = Some c →
       ((length (queue_of cid st) < 10)%nat →
          commands_queue (add_command cid cmd st) !! cid
          = Some (queue_of cid st ++ [cmd]))
       ∧ ((10 ≤ length (queue_of cid st))%nat →
          add_command cid cmd st = st)).
Proof.
  split.
  - intros maxc thr ops cid q Hq.
    eapply (exec_queues_bounded (ClientManager_init maxc thr) ops); [|done].
    intros k q'. cbn. by rewrite lookup_empty.
  - intros st cid cmd c Hc. rewrite (add_command_registered _ _ _ _ Hc).
    change QUEUE_BOUND with 10%nat. split; intros Hlen.
    + apply Nat.ltb_lt in Hlen as ->. cbn. by rewrite lookup_insert_eq.
    + by apply Nat.ltb_ge in Hlen as ->.
Qed.

(** C6. For a registered client whose queue is empty, [add_command]
    followed by [get_command] returns exactly the command that was
    added, and a second [get_command], on the queue that is empty
    again, returns [None] and changes nothing. *)
Theorem enqueue_dequeue_round_trip st cid cmd c :
  clients st !! cid = Some c →
  queue_of cid st = [] →
  let first := get_command cid (add_command cid cmd st) in
  let second := get_command cid first.2 in
  first.1 = Some cmd
  ∧ queue_of cid first.2 = []
  ∧ second = (None, first.2).
Proof.
  intros Hc Hempty. cbn zeta.
  rewrite (add_command_registered _ _ _ _ Hc), Hempty. cbn [length app].
  change (0 <? QUEUE_BOUND)%nat with true. cbn match.
  erewrite get_command_queue by (cbn; by rewrite lookup_insert_eq).
  cbn [fst snd head tail commands_queue with_queues].
  rewrite insert_insert_eq. split; [done|]. split.
  - apply queue_of_insert.
  - erewrite get_command_queue by (cbn; by rewrite lookup_insert_eq).
    cbn [head tail commands_queue with_queues].
    by rewrite insert_insert_eq.
Qed.

End RegistryFacts.

(* ------------------------------------------------------------------ *)
(** ** The connection rate limiter *)

Lemma Qlt_bool_true (x y : Q) : Qlt_bool x y = true ↔ (x < y)%Q.
Proof.
  unfold Qlt_bool. rewrite negb_true_iff, <- not_true_iff_false, Qle_bool_iff.
  split; [apply Qnot_le_lt | apply Qlt_not_le].
Qed.

Lemma Qlt_bool_false (x y : Q) : Qlt_bool x y = false ↔ (y <= x)%Q.
Proof. unfold Qlt_bool. by rewrite negb_false_iff, Qle_bool_iff. Qed.

Lemma prune_elem_of now ts t :
  t ∈ prune now ts ↔ t ∈ ts ∧ (now - t < 60)%Q.
Proof.
  induction ts as [|t0 ts IH]; cbn [prune].
  - split; [by intros ?%elem_of_nil | by intros [?%elem_of_nil _]].
  - destruct (Qlt_bool (now - t0) 60) eqn:Hage.
    + apply Qlt_bool_true in Hage. rewrite !elem_of_cons, IH.
      split; [intros [->|[Hin Hlt]] | intros [[->|Hin] Hlt]]; auto.
    + apply Qlt_bool_false in Hage. rewrite elem_of_cons, IH.
      split; [intros [Hin Hlt]; auto|]. intros [[->|Hin] Hlt]; [|done].
      exfalso. revert Hlt. by apply Qle_not_lt.
Qed.

Lemma prune_sublist now ts : sublist (prune now ts) ts.
Proof.
  induction ts as [|t0 ts IH]; cbn [prune]; [constructor|].
  destruct (Qlt_bool (now - t0) 60); by constructor.
Qed.

Lemma prune_recent now ts :
  Forall (λ t, (now - t < 60)%Q) ts → prune now ts = ts.
Proof.
  induction 1 as [|t ts Ht _ IH]; cbn [prune]; [done|].
  apply Qlt_bool_true in Ht. by rewrite Ht, IH.
Qed.

Lemma prune_old now ts :
  Forall (λ t, (60 <= now - t)%Q) ts → prune now ts = [].
Proof.
  induction 1 as [|t ts Ht _ IH]; cbn [prune]; [done|].
  apply Qlt_bool_false in Ht. by rewrite Ht, IH.
Qed.

Lemma allow_connection_below now rl :
  Z.of_nat (length (prune now (connection_times rl))) < max_connections rl →
  allow_connection now rl
  = (true, {| connection_times := prune now (connection_times rl) ++ [now];
              max_connections := max_connections rl |}).
Proof. unfold allow_connection. by intros ->%Z.ltb_lt. Qed.

Lemma allow_connection_full now rl :
  max_connections rl ≤ Z.of_nat (length (prune now (connection_times rl))) →
  allow_connection now rl
  = (false, {| connection_times := prune now (connection_times rl);
               max_connections := max_connections rl |}).
Proof. unfold allow_connection. by intros ->%Z.ltb_ge. Qed.

(** C8. [allow_connection] first prunes the recorded timestamps: the
    ones kept are those less than 60 seconds old, in their order, so
    every timestamp older than 60 seconds is removed. Then, if fewer
    than the configured maximum remain, it records the current
    timestamp and returns true; otherwise it returns false and records
    nothing. With a maximum of 3, three calls within one window return
    true, a fourth one in that window returns false, and a call 61
    seconds (or more) later returns true again. *)
Theorem allow_connection_window :
  (∀ now rl,
     let kept := prune now (connection_times rl) in
     sublist kept (connection_times rl)
     ∧ (∀ t, t ∈ kept ↔ t ∈ connection_times rl ∧ (now - t < 60)%Q)
     ∧ (Z.of_nat (length kept) < max_connections rl →
          allow_connection now rl
          = (true, {| connection_times := kept ++ [now];
                      max_connections := max_connections rl |}))
     ∧ (max_connections rl ≤ Z.of_nat (length kept) →
          allow_connection now rl
          = (false, {| connection_times := kept;
                       max_connections := max_connections rl |})))
  ∧ (∀ t1 t2 t3 t4 t5 : Q,
       (t1 <= t2)%Q → (t2 <= t3)%Q → (t3 <= t4)%Q → (t4 - t1 < 60)%Q →
       (t4 + 61 <= t5)%Q →
       (allow_connections [t1; t2; t3; t4; t5] (ConnectionRateLimiter_init 3)).1
       = [true; true; true; false; true]).
Proof.
  split.
  - intros now rl. cbn zeta. split; [apply prune_sublist|].
    split; [intros t; apply prune_elem_of|].
    split; [apply allow_connection_below | apply allow_connection_full].
  - intros t1 t2 t3 t4 t5 H12 H23 H34 Hwin Hlater.
    assert (P2 : prune t2 [t1] = [t1])
      by (apply prune_recent; repeat constructor; lra).
    assert (P3 : prune t3 [t1; t2] = [t1; t2])
      by (apply prune_recent; repeat constructor; lra).
    assert (P4 : prune t4 [t1; t2; t3] = [t1; t2; t3])
      by (apply prune_recent; repeat constructor; lra).
    assert (P5 : prune t5 [t1; t2; t3] = [])
      by (apply prune_old; repeat constructor; lra).
    cbn [allow_connections].
    rewrite allow_connection_below by (cbn; lia).
    cbn [connection_times max_connections ConnectionRateLimiter_init prune app].
    rewrite allow_connection_below
      by (cbn [connection_times max_connections]; rewrite P2; cbn; lia).
    cbn [connection_times max_connections]. rewrite P2. cbn [app].
    rewrite allow_connection_below
      by (cbn [connection_times max_connections]; rewrite P3; cbn; lia).
    cbn [connection_times max_connections]. rewrite P3. cbn [app].
    rewrite allow_connection_full
      by (cbn [connection_times max_connections]; rewrite P4; cbn; lia).
    cbn [connection_times max_connections]. rewrite P4.
    rewrite allow_connection_below
      by (cbn [connection_times max_connections]; rewrite P5; cbn; lia).
    done.
Qed.

(* ------------------------------------------------------------------ *)
(** ** The statements on concrete runs *)

(** A rejected admission under CPU load, and an accepted one on the
    fresh manager. *)
Lemma register_client_admission_witness :
  (admission_rejected manager_loaded
   ∧ register_client "c1" "10.0.0.1" "host" 5 6 manager_loaded
     = (false, manager_loaded))
  ∧ (¬ admission_rejected manager0
     ∧ (register_client "c1" "10.0.0.1" "host" 5 6 manager0).1 = true).
Proof.
  assert (Hrej : admission_rejected manager_loaded)
    by (right; left; reflexivity).
  assert (Hacc : ¬ admission_rejected manager0)
    by (apply can_accept_client_true; reflexivity).
  split; split; [done| |done|].
  - exact (proj1 (register_client_admission manager_loaded
                    "c1" "10.0.0.1" "host" 5 6) Hrej).
  - destruct (proj2 (register_client_admission manager0
                       "c1" "10.0.0.1" "host" 5 6) Hacc) as (st' & -> & _).
    reflexivity.
Defined.

(** Capacity 1: the first admission fills the registry, the second is
    rejected. *)
Lemma admit_only_capacity_witness :
  let st0 : ClientManager string := ClientManager_init 1 0.8%Q in
  let pre := [OpRegister "c1" "10.0.0.1" "host" 0 0] in
  let post := [OpMonitor (Some 10%Q) (Some 20%Q);
               OpRegister "c2" "10.0.0.2" "host" 1 1] in
  clients st0 = ∅
  ∧ 0 ≤ max_clients st0
  ∧ Forall admit_or_monitor (pre ++ post)
  ∧ Z.of_nat (online_count (clients (exec st0 pre))) ≤ max_clients st0
  ∧ results (exec st0 pre) post !! 1%nat = Some (RBool false).
Proof.
  intros st0 pre post.
  assert (Hmax : 0 ≤ max_clients st0) by (cbn; lia).
  assert (Hops : Forall admit_or_monitor (pre ++ post))
    by (repeat constructor).
  destruct (admit_only_capacity st0 (pre ++ post) eq_refl Hmax Hops
              pre post eq_refl) as [Hle Hfull].
  split; [done|]. split; [done|]. split; [done|]. split; [done|].
  exact (Hfull eq_refl 1%nat "c2" "10.0.0.2" "host" 1 1 eq_refl).
Defined.

(** A heartbeat of a registered client, and a run over capacity 2. *)
Lemma heartbeat_exceeds_capacity_witness :
  (clients manager_c1 !! "c1"
   = Some (ClientInfo_new "c1" "10.0.0.1" "host" 0 0)
   ∧ (update_heartbeat "c1" 7 manager_c1).1 = true)
  ∧ ((1 ≤ 2)%nat
     ∧ ∃ ops : list (Op string),
         Forall admit_sweep_touch ops
         ∧ max_clients (exec (ClientManager_init 2 0.8%Q) ops)
           < Z.of_nat (online_count
                         (clients (exec (ClientManager_init 2 0.8%Q) ops)))).
Proof.
  assert (Hc : clients manager_c1 !! "c1"
               = Some (ClientInfo_new "c1" "10.0.0.1" "host" 0 0))
    by reflexivity.
  assert (Hn : (1 ≤ 2)%nat) by lia.
  split; split; [done| |done|].
  - exact (proj1 (proj1 (@heartbeat_exceeds_capacity string)
                    manager_c1 "c1" 7 _ Hc)).
  - exact (proj2 (@heartbeat_exceeds_capacity string) 2%nat 0.8%Q Hn).
Defined.

(** Twelve commands sent to an empty queue: the first ten remain. *)
Lemma enqueue_beyond_bound_witness :
  let cmds := ["a"; "b"; "c"; "d"; "e"; "f"; "g"; "h"; "i"; "j"; "k"; "l"] in
  clients manager_c1 !! "c1"
  = Some (ClientInfo_new "c1" "10.0.0.1" "host" 0 0)
  ∧ (length (queue_of "c1" manager_c1) ≤ 10)%nat
  ∧ queue_of "c1" (add_commands "c1" cmds manager_c1)
    = ["a"; "b"; "c"; "d"; "e"; "f"; "g"; "h"; "i"; "j"].
Proof.
  intros cmds.
  assert (Hc : clients manager_c1 !! "c1"
               = Some (ClientInfo_new "c1" "10.0.0.1" "host" 0 0))
    by reflexivity.
  assert (Hlen : (length (queue_of "c1" manager_c1) ≤ 10)%nat)
    by (vm_compute; lia).
  split; [done|]. split; [done|].
  exact (proj1 (enqueue_beyond_bound manager_c1 "c1" _ cmds Hc Hlen)).
Defined.

(** C4 as stated fails: of eleven commands sent to a registered client
    with an empty queue, the one lost is the newest, not the oldest.
    The queue holds the first ten, the next [get_command] returns the
    very first command, and the queue differs from what dropping the
    oldest would leave. *)
Lemma drop_oldest_counterexample :
  let cmds := ["a"; "b"; "c"; "d"; "e"; "f"; "g"; "h"; "i"; "j"; "k"] in
  let st := add_commands "c1" cmds manager_c1 in
  queue_of "c1" st = ["a"; "b"; "c"; "d"; "e"; "f"; "g"; "h"; "i"; "j"]
  ∧ drop_oldest_queue (queue_of "c1" manager_c1) cmds
    = ["b"; "c"; "d"; "e"; "f"; "g"; "h"; "i"; "j"; "k"]
  ∧ queue_of "c1" st ≠ drop_oldest_queue (queue_of "c1" manager_c1) cmds
  ∧ (get_command "c1" st).1 = Some "a".
Proof.
  cbn zeta. split; [reflexivity|]. split; [reflexivity|].
  split; [|reflexivity]. vm_compute. discriminate.
Qed.

(** A queue reached by a run, and an append below the bound. *)
Lemma command_queue_bounded_witness :
  let ops : list (Op string) :=
    [OpRegister "c1" "10.0.0.1" "host" 0 0; OpAddCommand "c1" "screenshot"] in
  commands_queue (exec manager0 ops) !! "c1" = Some ["screenshot"]
  ∧ (length ["screenshot"] ≤ 10)%nat
  ∧ clients manager_c1 !! "c1"
    = Some (ClientInfo_new "c1" "10.0.0.1" "host" 0 0)
  ∧ (length (queue_of "c1" manager_c1) < 10)%nat
  ∧ commands_queue (add_command "c1" "screenshot" manager_c1) !! "c1"
    = Some (queue_of "c1" manager_c1 ++ ["screenshot"]).
Proof.
  intros ops.
  assert (Hq : commands_queue (exec manager0 ops) !! "c1" = Some ["screenshot"])
    by reflexivity.
  assert (Hc : clients manager_c1 !! "c1"
               = Some (ClientInfo_new "c1" "10.0.0.1" "host" 0 0))
    by reflexivity.
  assert (Hlen : (length (queue_of "c1" manager_c1) < 10)%nat)
    by (vm_compute; lia).
  split; [done|]. split.
  - exact (proj1 (@command_queue_bounded string) 50 0.8%Q ops "c1" _ Hq).
  - split; [done|]. split; [done|].
    exact (proj1 (proj2 (@command_queue_bounded string)
                    manager_c1 "c1" "screenshot" _ Hc) Hlen).
Defined.

(** One command through the queue of a freshly registered client. *)
Lemma enqueue_dequeue_round_trip_witness :
  let first := get_command "c1" (add_command "c1" "screenshot" manager_c1) in
  clients manager_c1 !! "c1"
  = Some (ClientInfo_new "c1" "10.0.0.1" "host" 0 0)
  ∧ queue_of "c1" manager_c1 = []
  ∧ first.1 = Some "screenshot"
  ∧ get_command "c1" first.2 = (None, first.2).
Proof.
  intros first.
  assert (Hc : clients manager_c1 !! "c1"
               = Some (ClientInfo_new "c1" "10.0.0.1" "host" 0 0))
    by reflexivity.
  assert (Hq : queue_of "c1" manager_c1 = []) by reflexivity.
  destruct (enqueue_dequeue_round_trip manager_c1 "c1" "screenshot" _ Hc Hq)
    as (H1 & _ & H2).
  split; [done|]. split; [done|]. split; [exact H1 | exact H2].
Defined.

(** A client registered at time 0, swept after 301 seconds with the
    default timeout, and heard again a second later. *)
Lemma sweep_then_heartbeat_witness :
  let mid : list (Op string) :=
    [OpAddCommand "c1" "screenshot"; OpHeartbeat "c2" 10; OpGetCommand "c1";
     OpCleanup 300%Q 100000000] in
  let swept :=
    cleanup_inactive_clients 300%Q 301000000 (exec manager_c1 mid) in
  ¬ admission_rejected manager0
  ∧ Forall (leaves_alone "c1") mid
  ∧ (300 < total_seconds (301000000 - 0))%Q
  ∧ status <$> clients swept !! "c1" = Some "offline"
  ∧ clients (update_heartbeat "c1" 302000000 swept).2 !! "c1"
    = Some {| client_id := "c1"; ip := "10.0.0.1"; hostname := "host";
              last_seen := 302000000; status := "online";
              connection_time := 0;
              resource_usage := 0%Q; commands_processed := 0 |}.
Proof.
  intros mid swept.
  assert (Hacc : ¬ admission_rejected manager0)
    by (apply can_accept_client_true; reflexivity).
  assert (Hmid : Forall (leaves_alone "c1") mid) by (repeat constructor; done).
  assert (Hto : (300 < total_seconds (301000000 - 0))%Q) by reflexivity.
  destruct (sweep_then_heartbeat manager0 "c1" "10.0.0.1" "host" 0 0 mid
              300%Q 301000000 302000000 Hacc Hmid Hto)
    as (_ & Hoff & _ & Hon & _).
  split; [done|]. split; [done|]. split; [done|]. split.
  - unfold swept, manager_c1. by rewrite Hoff.
  - exact Hon.
Defined.

(** One client past the timeout and one within it. *)
Lemma cleanup_inactive_clients_sweep_witness :
  let st := (update_heartbeat "c2" 200000000
               (register_client "c2" "10.0.0.2" "host" 0 0 manager_c1).2).2 in
  let st' := cleanup_inactive_clients 300%Q 301000000 st in
  (clients st !! "c1" = Some (ClientInfo_new "c1" "10.0.0.1" "host" 0 0)
   ∧ (300 < total_seconds (301000000 - 0))%Q
   ∧ status <$> clients st' !! "c1" = Some "offline")
  ∧ (clients st !! "c2"
     = Some (ClientInfo_new "c2" "10.0.0.2" "host" 200000000 0)
     ∧ (total_seconds (301000000 - 200000000) <= 300)%Q
     ∧ status <$> clients st' !! "c2" = Some "online").
Proof.
  intros st st'.
  assert (H1 : clients st !! "c1"
               = Some (ClientInfo_new "c1" "10.0.0.1" "host" 0 0))
    by reflexivity.
  assert (H2 : clients st !! "c2"
               = Some (ClientInfo_new "c2" "10.0.0.2" "host" 200000000 0))
    by reflexivity.
  assert (Hold : (300 < total_seconds (301000000 - 0))%Q) by reflexivity.
  assert (Hnew : (total_seconds (301000000 - 200000000) <= 300)%Q)
    by (vm_compute; discriminate).
  pose proof (proj1 (cleanup_inactive_clients_sweep 300%Q 301000000 st)) as Hs.
  split; (split; [done|]); (split; [done|]).
  - unfold st'. by rewrite (proj1 (Hs "c1" _ H1) Hold).
  - unfold st'. by rewrite (proj2 (Hs "c2" _ H2) Hnew).
Defined.

(** A heartbeat of an identifier that was never registered, and one of
    a registered client. *)
Lemma update_heartbeat_touch_witness :
  (clients manager_c1 !! "ghost" = None
   ∧ update_heartbeat "ghost" 5 manager_c1 = (false, manager_c1))
  ∧ (manager_c1 = exec manager0 [OpRegister "c1" "10.0.0.1" "host" 0 0]
     ∧ Forall (never_registers "ghost")
         [OpRegister (Command:=string) "c1" "10.0.0.1" "host" 0 0])
  ∧ (clients manager_c1 !! "c1"
     = Some (ClientInfo_new "c1" "10.0.0.1" "host" 0 0)
     ∧ (update_heartbeat "c1" 5 manager_c1).1 = true).
Proof.
  assert (Hnone : clients manager_c1 !! "ghost" = None) by reflexivity.
  assert (Hrun : manager_c1
                 = exec manager0 [OpRegister "c1" "10.0.0.1" "host" 0 0])
    by reflexivity.
  assert (Hnever : Forall (never_registers "ghost")
                     [OpRegister (Command:=string) "c1" "10.0.0.1" "host" 0 0])
    by (repeat constructor; done).
  assert (Hc : clients manager_c1 !! "c1"
               = Some (ClientInfo_new "c1" "10.0.0.1" "host" 0 0))
    by reflexivity.
  destruct (update_heartbeat_touch "c1" 5 manager_c1) as (_ & _ & Hknown).
  destruct (update_heartbeat_touch "ghost" 5 manager_c1) as (Hunknown & Hhist & _).
  split; [split; [done | exact (Hunknown Hnone)]|].
  split; [done|]. split; [done|].
  destruct (Hknown _ Hc) as (st' & -> & _). reflexivity.
Defined.

(** Calls at seconds 0, 1, 2, 3 and 64 with a maximum of 3. *)
Lemma allow_connection_window_witness :
  ((0 <= 1)%Q ∧ (1 <= 2)%Q ∧ (2 <= 3)%Q ∧ (3 - 0 < 60)%Q ∧ (3 + 61 <= 64)%Q)
  ∧ (allow_connections [0%Q; 1%Q; 2%Q; 3%Q; 64%Q]
       (ConnectionRateLimiter_init 3)).1
    = [true; true; true; false; true].
Proof.
  assert (H12 : (0 <= 1)%Q) by (vm_compute; discriminate).
  assert (H23 : (1 <= 2)%Q) by (vm_compute; discriminate).
  assert (H34 : (2 <= 3)%Q) by (vm_compute; discriminate).
  assert (Hwin : (3 - 0 < 60)%Q) by reflexivity.
  assert (Hlater : (3 + 61 <= 64)%Q) by (vm_compute; discriminate).
  split; [done|].
  exact (proj2 allow_connection_window 0%Q 1%Q 2%Q 3%Q 64%Q
           H12 H23 H34 Hwin Hlater).
Defined.

(* ------------------------------------------------------------------ *)
(** ** More on the manager *)

Lemma online_count_le_size (m : gmap string ClientInfo) :
  (online_count m ≤ size m)%nat.
Proof.
  unfold online_count. etrans; [apply length_filter|].
  by rewrite length_fmap, length_map_to_list.
Qed.

Lemma online_count_fmap_le (f : ClientInfo → ClientInfo) (m : gmap string ClientInfo) :
  (∀ c, (online_weight (f c) ≤ online_weight c)%nat) →
  (online_count (f <$> m) ≤ online_count m)%nat.
Proof.
  intros Hf. induction m as [|k c m Hk IH] using map_ind.
  - by rewrite fmap_empty.
  - rewrite fmap_insert.
    rewrite !online_count_insert_fresh by (done || by rewrite lookup_fmap, Hk).
    specialize (Hf c). lia.
Qed.

Lemma sweep_record_weight timeout now c :
  (online_weight (sweep_record timeout now c) ≤ online_weight c)%nat.
Proof.
  unfold sweep_record. destruct (timed_out timeout now c); [|done].
  unfold online_weight at 1. cbn. rewrite decide_False by done. lia.
Qed.

Section ManagerFacts.
Context {Command : Type}.
Implicit Types st : ClientManager Command.

(** Case analysis on a call. *)
Ltac call_cases o :=
  destruct o as [cid addr host t1 t2|cid now|cid cmd|cid|timeout now|cpu mem].

(** *** Records are never removed *)

Lemma step_dom_clients st o :
  dom (clients st) ⊆ dom (clients (step st o).2).
Proof.
  destruct (step_clients_cases st o)
    as [->|[(k&addr&host&t1&t2&->&_&->)|[(k&now&c&->&_&->)|(timeout&now&->&->)]]].
  - done.
  - rewrite dom_insert_L. apply union_subseteq_r.
  - rewrite dom_insert_L. apply union_subseteq_r.
  - by rewrite dom_fmap_L.
Qed.

Lemma exec_dom_clients st ops :
  dom (clients st) ⊆ dom (clients (exec st ops)).
Proof.
  revert st. induction ops as [|o ops IH]; intros st; [done|].
  rewrite exec_cons. etrans; [apply step_dom_clients | apply IH].
Qed.

(** X1. No method of the manager removes a client record: along any
    sequence of calls the set of registered identifiers only grows,
    and so does the [total_clients] that [get_system_status] reports. *)
Theorem clients_never_removed st (ops : list (Op Command)) :
  dom (clients st) ⊆ dom (clients (exec st ops))
  ∧ (total_clients (get_system_status st)
     ≤ total_clients (get_system_status (exec st ops)))%nat.
Proof.
  split; [apply exec_dom_clients|]. cbn.
  rewrite <- !size_dom. apply subseteq_size, exec_dom_clients.
Qed.

(** *** Queues belong to registered clients *)

Lemma add_command_dom_queues cid cmd st :
  dom (commands_queue (add_command cid cmd st))
  ⊆ dom (commands_queue st) ∪ ({[cid]} ∩ dom (clients st)).
Proof.
  destruct (clients st !! cid) as [c|] eqn:Hc.
  - rewrite (add_command_registered _ _ _ _ Hc).
    destruct (_ <? _)%nat; [|apply union_subseteq_l].
    cbn. rewrite dom_insert_L. apply elem_of_dom_2 in Hc.
    apply union_least; [|apply union_subseteq_l].
    etrans; [|apply union_subseteq_r].
    apply intersection_greatest; [done | by apply singleton_subseteq_l].
  - rewrite add_command_unregistered by done. apply union_subseteq_l.
Qed.

Lemma get_command_dom_queues cid st :
  dom (commands_queue (get_command cid st).2) = dom (commands_queue st).
Proof.
  destruct (commands_queue st !! cid) as [q|] eqn:Hq.
  - rewrite (get_command_queue _ _ _ Hq). cbn. rewrite dom_insert_L.
    apply elem_of_dom_2 in Hq.
    by apply subseteq_union_1_L, singleton_subseteq_l.
  - by rewrite get_command_absent.
Qed.

Lemma step_queues_of_clients st o :
  queues_of_clients st → queues_of_clients (step st o).2.
Proof.
  unfold queues_of_clients. intros Hinv.
  pose proof (step_dom_clients st o) as Hdom. rewrite step_state in *.
  call_cases o.
  - rewrite register_client_commands_queue. by etrans.
  - rewrite update_heartbeat_commands_queue. by etrans.
  - etrans; [apply add_command_dom_queues|].
    rewrite add_command_clients.
    apply union_least; [done | apply intersection_subseteq_r].
  - rewrite get_command_dom_queues, get_command_clients. done.
  - rewrite cleanup_commands_queue. by etrans.
  - rewrite monitor_commands_queue. by etrans.
Qed.

Lemma exec_queues_of_clients st ops :
  queues_of_clients st → queues_of_clients (exec st ops).
Proof.
  revert st. induction ops as [|o ops IH]; intros st Hinv; [done|].
  rewrite exec_cons. by apply IH, step_queues_of_clients.
Qed.

Lemma sum_list_lengths_bounded (qs : list (list Command)) :
  Forall (λ q, (length q ≤ QUEUE_BOUND)%nat) qs →
  (sum_list (length <$> qs) ≤ QUEUE_BOUND * length qs)%nat.
Proof.
  induction 1 as [|q qs Hq _ IH]; [cbn; lia|].
  rewrite fmap_cons. cbn [sum_list_with length]. unfold id at 1.
  rewrite Nat.mul_succ_r. lia.
Qed.

Lemma total_commands_queued_bounded st :
  queues_bounded (commands_queue st) →
  (total_commands_queued (get_system_status st)
   ≤ QUEUE_BOUND * size (commands_queue st))%nat.
Proof.
  intros Hb. cbn. rewrite <- length_map_to_list.
  rewrite <- (length_fmap snd (map_to_list (commands_queue st))).
  apply sum_list_lengths_bounded.
  apply Forall_forall. intros q [[k q'] [-> Hin]]%list_elem_of_fmap.
  apply elem_of_map_to_list in Hin. by eapply Hb.
Qed.

(** X2. In every state reached from the initial one, commands are
    queued for registered clients only, and the figures that
    [get_system_status] reports are consistent: there are no more
    active clients than clients, and no more than 10 queued commands
    per client. (The first inequality holds in any state.) *)
Theorem system_status_consistent maxc thr (ops : list (Op Command)) :
  let st := exec (ClientManager_init maxc thr) ops in
  let s := get_system_status st in
  dom (commands_queue st) ⊆ dom (clients st)
  ∧ (active_clients s ≤ total_clients s)%nat
  ∧ (total_commands_queued s ≤ 10 * total_clients s)%nat
  ∧ status_max_clients s = maxc.
Proof.
  cbn zeta.
  assert (Hq : queues_of_clients (exec (ClientManager_init maxc thr) ops)).
  { apply exec_queues_of_clients. unfold queues_of_clients. cbn.
    by rewrite !dom_empty_L. }
  assert (Hb : queues_bounded
                 (commands_queue (exec (ClientManager_init maxc thr) ops))).
  { apply exec_queues_bounded. intros k q. cbn. by rewrite lookup_empty. }
  split; [done|]. split; [apply online_count_le_size|]. split.
  - etrans; [by apply total_commands_queued_bounded|].
    change QUEUE_BOUND with 10%nat. apply Nat.mul_le_mono_l.
    cbn [total_clients get_system_status].
    rewrite <- !size_dom. by apply subseteq_size.
  - cbn. by rewrite exec_max_clients.
Qed.

(** *** Records and their keys *)

Lemma step_keyed_by_id st o :
  keyed_by_id (clients st) → keyed_by_id (clients (step st o).2).
Proof.
  intros Hinv.
  destruct (step_clients_cases st o)
    as [->|[(k&addr&host&t1&t2&->&_&->)|[(k&now&c&->&Hk&->)|(timeout&now&->&->)]]].
  - done.
  - intros cid c. destruct (decide (cid = k)) as [->|Hne].
    + rewrite lookup_insert_eq. by intros [= <-].
    + rewrite lookup_insert_ne by done. apply Hinv.
  - intros cid c'. destruct (decide (cid = k)) as [->|Hne].
    + rewrite lookup_insert_eq. intros [= <-]. cbn. by apply Hinv.
    + rewrite lookup_insert_ne by done. apply Hinv.
  - intros cid c. rewrite lookup_fmap.
    destruct (clients st !! cid) as [c0|] eqn:Hc; [|done].
    cbn. intros [= <-]. destruct (sweep_record_set_status timeout now c0) as [s ->].
    cbn. by apply Hinv.
Qed.

Lemma exec_keyed_by_id st ops :
  keyed_by_id (clients st) → keyed_by_id (clients (exec st ops)).
Proof.
  revert st. induction ops as [|o ops IH]; intros st Hinv; [done|].
  rewrite exec_cons. by apply IH, step_keyed_by_id.
Qed.

(** X3. In every state reached from the initial one, a record found
    under an identifier carries that identifier in its [client_id]
    field: registration stores the record under its own identifier and
    no method changes the field. *)
Theorem client_id_is_key maxc thr (ops : list (Op Command)) cid c :
  clients (exec (ClientManager_init maxc thr) ops) !! cid = Some c →
  client_id c = cid.
Proof.
  apply (exec_keyed_by_id (ClientManager_init maxc thr) ops).
  intros k c'. cbn. by rewrite lookup_empty.
Qed.

(** *** The configured threshold *)

Lemma step_with_threshold thr st o :
  step (with_threshold thr st) o
  = ((step st o).1, with_threshold thr (step st o).2).
Proof.
  call_cases o; unfold step.
  - unfold register_client.
    change (can_accept_client (with_threshold thr st)) with (can_accept_client st).
    by destruct (can_accept_client st).
  - unfold update_heartbeat. cbn [clients with_threshold].
    by destruct (clients st !! cid).
  - f_equal. unfold add_command. cbn [clients with_threshold commands_queue].
    destruct (clients st !! cid); [|done].
    destruct (defaultdict_get _ _). by destruct (_ <? _)%nat.
  - unfold get_command. cbn [commands_queue with_threshold].
    by destruct (_ !! _) as [[|??]|].
  - f_equal. by rewrite !cleanup_inactive_clients_fmap.
  - f_equal. by destruct cpu, mem.
Qed.

(** X4. The [resource_threshold] given to the constructor has no
    effect: with any other value, every sequence of calls returns the
    same results and leaves the same state (but for the stored
    threshold itself). The admission check compares with the constants
    80 and 85. *)
Theorem resource_threshold_unused thr st (ops : list (Op Command)) :
  results (with_threshold thr st) ops = results st ops
  ∧ exec (with_threshold thr st) ops = with_threshold thr (exec st ops).
Proof.
  revert st. induction ops as [|o ops IH]; intros st; [done|].
  cbn [results]. rewrite exec_cons, (exec_cons st), step_with_threshold.
  cbn [fst snd]. destruct (IH (step st o).2) as [-> ->]. done.
Qed.

(** *** The sweep and liveness *)

Lemma cleanup_online_recent timeout now st cid c :
  clients (cleanup_inactive_clients timeout now st) !! cid = Some c →
  status c = "online" →
  (total_seconds (now - last_seen c) <= timeout)%Q.
Proof.
  rewrite cleanup_inactive_clients_fmap. cbn. rewrite lookup_fmap.
  destruct (clients st !! cid) as [c0|]; [|done]. cbn. intros [= <-].
  unfold sweep_record. destruct (timed_out timeout now c0) eqn:Hto; [done|].
  intros _. by apply timed_out_false.
Qed.

(** X5. After [cleanup_inactive_clients], every client that is still
    online was last seen within the timeout, and the sweep does not
    raise the number of online clients. *)
Theorem cleanup_leaves_live_clients timeout now st :
  let st' := cleanup_inactive_clients timeout now st in
  (∀ cid c, clients st' !! cid = Some c → status c = "online" →
     (total_seconds (now - last_seen c) <= timeout)%Q)
  ∧ (online_count (clients st') ≤ online_count (clients st))%nat.
Proof.
  cbn zeta. split.
  - intros cid c. apply cleanup_online_recent.
  - rewrite cleanup_inactive_clients_fmap. cbn.
    apply online_count_fmap_le. intros c. apply sweep_record_weight.
Qed.

(** *** A stale snapshot *)

Lemma step_no_sample_resources st o :
  no_sample o → system_resources (step st o).2 = system_resources st.
Proof.
  intros Ho. rewrite step_state. call_cases o.
  - unfold register_client. by destruct (can_accept_client st).
  - unfold update_heartbeat. by destruct (_ !! _).
  - apply add_command_resources.
  - apply get_command_resources.
  - by rewrite cleanup_inactive_clients_fmap.
  - by destruct cpu.
Qed.

Lemma overloaded_rejected st : overloaded st → can_accept_client st = false.
Proof. intros Hov. apply can_accept_client_false. by right. Qed.

(** X6. The admission check reads the snapshot that the monitor wrote
    last. If it shows CPU above 80 or memory above 85, then for as long
    as no new CPU sample arrives (the monitor's call to [psutil]
    raises, or no pass is made), every [register_client] is rejected,
    whatever else is called in between. *)
Theorem stale_snapshot_rejects st (ops : list (Op Command)) :
  overloaded st →
  Forall no_sample ops →
  ∀ i cid addr host t1 t2,
    ops !! i = Some (OpRegister cid addr host t1 t2) →
    results st ops !! i = Some (RBool false).
Proof.
  intros Hov Hops. revert st Hov.
  induction Hops as [|o ops Ho _ IH]; intros st Hov i; [done|].
  assert (Hov' : overloaded (step st o).2)
    by (unfold overloaded; by rewrite step_no_sample_resources).
  destruct i as [|i]; cbn [results]; intros cid addr host t1 t2 Hi.
  - cbn in Hi. injection Hi as ->.
    rewrite step_result, register_client_rejected; [done|].
    by apply overloaded_rejected.
  - cbn in Hi |- *. by eapply IH.
Qed.

(** *** Registering again *)

(** X7. When a client that has a record registers again and is
    admitted, the record is replaced in place: the number of records
    stays the same, the commands queued for the client stay queued, and
    the online count grows by one exactly when the old record was not
    online. *)
Theorem register_again cid addr host t_seen t_conn st c :
  clients st !! cid = Some c →
  ¬ admission_rejected st →
  let st' := (register_client cid addr host t_seen t_conn st).2 in
  size (clients st') = size (clients st)
  ∧ commands_queue st' = commands_queue st
  ∧ (online_count (clients st') + online_weight c
     = S (online_count (clients st)))%nat
  ∧ (connection_time <$> clients st' !! cid) = Some t_conn.
Proof.
  intros Hc Hacc%can_accept_client_true. cbn zeta.
  rewrite register_client_accepted by done. cbn.
  split; [by apply map_size_insert_Some|]. split; [done|]. split.
  - pose proof (online_count_replace (clients st) cid c
                  (ClientInfo_new cid addr host t_seen t_conn) Hc) as Hrep.
    unfold online_weight at 2 in Hrep. cbn in Hrep.
    rewrite decide_True in Hrep by done. lia.
  - by rewrite lookup_insert_eq.
Qed.

End ManagerFacts.

(* ------------------------------------------------------------------ *)
(** ** More on the rate limiter *)

Lemma prune_length now ts : (length (prune now ts) ≤ length ts)%nat.
Proof. apply sublist_length, prune_sublist. Qed.

Lemma allow_connection_max t rl :
  max_connections (allow_connection t rl).2 = max_connections rl.
Proof. unfold allow_connection. by destruct (_ <? _). Qed.

Lemma allow_connection_within_limit t rl :
  within_limit rl → within_limit (allow_connection t rl).2.
Proof.
  unfold within_limit. intros Hinv.
  pose proof (prune_length t (connection_times rl)) as Hlen.
  unfold allow_connection.
  destruct (Z.ltb_spec (Z.of_nat (length (prune t (connection_times rl))))
              (max_connections rl)) as [Hlt|Hge]; cbn.
  - rewrite length_app. cbn. lia.
  - lia.
Qed.

Lemma allow_connection_times_subset t rl x :
  x ∈ connection_times (allow_connection t rl).2 →
  x ∈ connection_times rl ∨ x = t.
Proof.
  unfold allow_connection. destruct (_ <? _); cbn.
  - intros [Hx|Hx%list_elem_of_singleton]%elem_of_app; [left|by right].
    by apply prune_elem_of in Hx as [? _].
  - intros Hx. left. by apply prune_elem_of in Hx as [? _].
Qed.

Lemma allow_connections_cons t times rl :
  allow_connections (t :: times) rl
  = ((allow_connection t rl).1
       :: (allow_connections times (allow_connection t rl).2).1,
     (allow_connections times (allow_connection t rl).2).2).
Proof.
  cbn [allow_connections]. destruct (allow_connection t rl) as [b rl1].
  cbn [fst snd]. by destruct (allow_connections times rl1).
Qed.

(** X8. Whatever the sequence of calls and their clock readings, a
    rate limiter that starts empty never stores more timestamps than
    its configured maximum, each stored timestamp is the reading of one
    of the calls, and the maximum itself is never changed. *)
Theorem rate_limiter_bounded maxc (times : list Q) :
  let rl := (allow_connections times (ConnectionRateLimiter_init maxc)).2 in
  (length (connection_times rl) ≤ Z.to_nat maxc)%nat
  ∧ connection_times rl ⊆ times
  ∧ max_connections rl = maxc.
Proof.
  cbn zeta.
  cut (∀ rl, within_limit rl →
         within_limit (allow_connections times rl).2
         ∧ (∀ x, x ∈ connection_times (allow_connections times rl).2 →
                 x ∈ connection_times rl ∨ x ∈ times)
         ∧ max_connections (allow_connections times rl).2 = max_connections rl).
  { intros Hgen.
    destruct (Hgen (ConnectionRateLimiter_init maxc)) as (H1 & H2 & H3).
    - unfold within_limit. cbn. lia.
    - unfold within_limit in H1. rewrite H3 in H1.
      split; [exact H1|]. split; [|exact H3].
      intros x Hx. destruct (H2 x Hx) as [Hnil|Hin]; [|done].
      by apply elem_of_nil in Hnil. }
  induction times as [|t times IH]; intros rl Hinv.
  - cbn. split; [done|]. split; [by left | done].
  - rewrite allow_connections_cons. cbn [snd].
    destruct (IH (allow_connection t rl).2) as (H1 & H2 & H3);
      [by apply allow_connection_within_limit|].
    split; [done|]. split.
    + intros x Hx. destruct (H2 x Hx) as [Hin|Hin].
      * destruct (allow_connection_times_subset t rl x Hin) as [?| ->];
          [by left | right; left].
      * right. by right.
    + by rewrite H3, allow_connection_max.
Qed.

(** Within one window nothing is pruned. *)
Lemma prune_one_window t0 t ts :
  (t < t0 + 60)%Q → Forall (λ x, (t0 <= x)%Q) ts → prune t ts = ts.
Proof.
  intros Ht Hts. apply prune_recent. eapply Forall_impl; [done|].
  cbn. intros x Hx. lra.
Qed.

Lemma allow_connections_one_window t0 times :
  one_window t0 times →
  ∀ rl, Forall (λ x, (t0 <= x)%Q) (connection_times rl) →
  let room := (Z.to_nat (max_connections rl) - length (connection_times rl))%nat in
  (allow_connections times rl).1
  = replicate (length times `min` room) true
    ++ replicate (length times - room) false.
Proof.
  induction 1 as [|t times [Hlo Hhi] _ IH]; intros rl Hrl; cbn zeta; [done|].
  rewrite allow_connections_cons. cbn [fst length].
  pose proof (prune_one_window t0 t _ Hhi Hrl) as Hkeep.
  destruct (Z.lt_ge_cases (Z.of_nat (length (connection_times rl)))
              (max_connections rl)) as [Hlt|Hge].
  - rewrite (allow_connection_below t rl) by (by rewrite Hkeep).
    rewrite Hkeep. cbn [fst snd].
    rewrite IH by (cbn; apply Forall_app; split; [done | by constructor]).
    cbn [connection_times max_connections]. rewrite length_app. cbn [length].
    replace (Z.to_nat (max_connections rl) - length (connection_times rl))%nat
      with (S (Z.to_nat (max_connections rl)
               - (length (connection_times rl) + 1)))%nat by lia.
    done.
  - rewrite (allow_connection_full t rl) by (by rewrite Hkeep).
    rewrite Hkeep. cbn [fst snd].
    rewrite IH by done. cbn [connection_times max_connections].
    replace (Z.to_nat (max_connections rl) - length (connection_times rl))%nat
      with 0%nat by lia.
    by rewrite Nat.min_0_r, !Nat.sub_0_r.
Qed.

(** X9. Of the calls that an empty rate limiter receives within one
    window of less than 60 seconds, in any order of their clock
    readings, exactly the first [max_connections] are allowed and all
    later ones are refused. *)
Theorem rate_limiter_one_window maxc t0 (times : list Q) :
  one_window t0 times →
  (allow_connections times (ConnectionRateLimiter_init maxc)).1
  = replicate (length times `min` Z.to_nat maxc) true
    ++ replicate (length times - Z.to_nat maxc) false.
Proof.
  intros Hwin.
  rewrite (allow_connections_one_window t0 times Hwin) by constructor.
  cbn. by rewrite Nat.sub_0_r.
Qed.

(* ------------------------------------------------------------------ *)
(** ** The HTTP handlers *)

Section ApiFacts.
Context {Payload : Type} (empty_payload : Payload).
Implicit Types sv : Server Payload.

Lemma with_manager_id sv : with_manager (client_manager sv) sv = sv.
Proof. by destruct sv. Qed.

Lemma truthy_Some (s : option string) :
  truthy s = true ↔ ∃ x, s = Some x ∧ x ≠ "".
Proof.
  destruct s as [x|]; cbn.
  - rewrite negb_true_iff, String.eqb_neq. split; [by exists x | by intros (?&[= ->]&?)].
  - split; [done | by intros (?&?&?)].
Qed.

Lemma truthy_nonempty (x : string) : x ≠ "" → truthy (Some x) = true.
Proof. intros Hx. apply truthy_Some. by exists x. Qed.

(** X10. [api_register] asks the rate limiter first and validates
    afterwards. A request that the limiter refuses gets 429 and does
    not reach the manager. Every other request has its attempt recorded
    by the limiter, also when it is then answered with 500 (no JSON
    object), 400 (no or empty [client_id]) or 503 (admission
    rejected), which all leave the manager unchanged; it gets 200
    exactly when it is admitted, and a missing hostname is registered
    as ["Unknown"]. *)
Theorem api_register_outcomes body addr t_rate t_seen t_conn sv :
  let allowed := (allow_connection t_rate (rate_limiter sv)).1 in
  let cm := client_manager sv in
  let r := api_register body addr t_rate t_seen t_conn sv in
  rate_limiter r.2 = (allow_connection t_rate (rate_limiter sv)).2
  ∧ (allowed = false → r.1 = Error 429 ∧ client_manager r.2 = cm)
  ∧ (allowed = true →
       connection_times (rate_limiter r.2)
       = prune t_rate (connection_times (rate_limiter sv)) ++ [t_rate])
  ∧ (allowed = true → body = None →
       r.1 = Error 500 ∧ client_manager r.2 = cm)
  ∧ (allowed = true → ∀ data, body = Some data →
       truthy (body_client_id data) = false →
       r.1 = Error 400 ∧ client_manager r.2 = cm)
  ∧ (allowed = true → ∀ data cid, body = Some data →
       body_client_id data = Some cid → cid ≠ "" →
       (admission_rejected cm → r.1 = Error 503 ∧ client_manager r.2 = cm)
       ∧ (¬ admission_rejected cm →
            r.1 = Success
            ∧ clients (client_manager r.2)
              = <[cid := ClientInfo_new cid addr
                           (default "Unknown" (body_hostname data))
                           t_seen t_conn]> (clients cm)
            ∧ commands_queue (client_manager r.2) = commands_queue cm)).
Proof.
  cbn zeta. unfold api_register.
  destruct (allow_connection t_rate (rate_limiter sv)) as [allowed rl] eqn:Hrl.
  cbn [fst snd].
  assert (Htimes : allowed = true →
            connection_times rl
            = prune t_rate (connection_times (rate_limiter sv)) ++ [t_rate]).
  { intros ->. unfold allow_connection in Hrl.
    destruct (_ <? _); [|done]. by injection Hrl as <-. }
  destruct allowed; cbn [negb].
  2:{ split; [done|]. split; [done|]. repeat (split; [done|]). done. }
  destruct body as [data|].
  2:{ split; [done|]. split; [done|]. split; [auto|]. split; [done|].
      split; by intros. }
  destruct (truthy (body_client_id data)) eqn:Hid; cbn [negb].
  2:{ split; [done|]. split; [done|]. split; [auto|]. split; [done|].
      split; [by intros _ ? [= <-]|].
      intros _ data' cid [= <-] Hcid Hne. exfalso.
      rewrite Hcid, truthy_nonempty in Hid; done. }
  apply truthy_Some in Hid as (cid & Hcid & Hne). rewrite Hcid.
  cbn [default from_option id client_manager with_limiter].
  destruct (can_accept_client (client_manager sv)) eqn:Hacc.
  - rewrite register_client_accepted by done. cbn.
    split; [done|]. split; [done|]. split; [auto|]. split; [done|].
    split; [intros _ ? [= <-]; by rewrite Hcid, truthy_nonempty|].
    intros _ data' cid' [= <-] Hcid' Hne'. rewrite Hcid in Hcid'.
    injection Hcid' as <-. split; [|done].
    intros Hrej%can_accept_client_false. congruence.
  - rewrite register_client_rejected by done. cbn.
    split; [done|]. split; [done|]. split; [auto|]. split; [done|].
    split; [intros _ ? [= <-]; by rewrite Hcid, truthy_nonempty|].
    intros _ data' cid' [= <-] Hcid' Hne'. split; [done|].
    intros Hok%can_accept_client_true. congruence.
Qed.

Lemma api_heartbeat_unknown cid now sv :
  clients (client_manager sv) !! cid = None →
  api_heartbeat cid now sv = (Error 404, sv).
Proof.
  intros Hnone. unfold api_heartbeat.
  rewrite update_heartbeat_unknown by done. by rewrite with_manager_id.
Qed.

Lemma api_heartbeat_known cid now sv c :
  clients (client_manager sv) !! cid = Some c →
  ∃ sv', api_heartbeat cid now sv
         = (SuccessCommand (head (queue_of cid (client_manager sv))), sv')
    ∧ clients (client_manager sv')
      = <[cid := set_status "online" (set_last_seen now c)]>
          (clients (client_manager sv))
    ∧ queue_of cid (client_manager sv')
      = tail (queue_of cid (client_manager sv))
    ∧ (∀ k, k ≠ cid →
         queue_of k (client_manager sv') = queue_of k (client_manager sv))
    ∧ rate_limiter sv' = rate_limiter sv.
Proof.
  intros Hc. unfold api_heartbeat. rewrite (update_heartbeat_known _ _ _ _ Hc).
  set (cm1 := with_clients _ (client_manager sv)).
  unfold queue_of.
  destruct (commands_queue (client_manager sv) !! cid) as [q|] eqn:Hq.
  - rewrite (get_command_queue cid cm1 q Hq).
    eexists. split; [done|]. cbn.
    split; [done|]. split; [by rewrite lookup_insert_eq|].
    split; [|done]. intros k Hk. by rewrite lookup_insert_ne.
  - rewrite (get_command_absent cid cm1 Hq).
    eexists. split; [done|]. cbn. rewrite Hq. done.
Qed.

(** X11. [api_heartbeat] answers 404 and changes nothing when the
    client has no record. Otherwise it answers 200 with the oldest
    queued command, or with no command when the queue is empty: the
    record has then the status online and the time of the heartbeat,
    the command returned has left the queue, and the rate limiter is
    not consulted. *)
Theorem api_heartbeat_outcomes cid now sv :
  let cm := client_manager sv in
  (clients cm !! cid = None → api_heartbeat cid now sv = (Error 404, sv))
  ∧ (∀ c, clients cm !! cid = Some c →
       ∃ sv', api_heartbeat cid now sv
              = (SuccessCommand (head (queue_of cid cm)), sv')
         ∧ clients (client_manager sv')
           = <[cid := set_status "online" (set_last_seen now c)]> (clients cm)
         ∧ queue_of cid (client_manager sv') = tail (queue_of cid cm)
         ∧ (∀ k, k ≠ cid →
              queue_of k (client_manager sv') = queue_of k cm)
         ∧ rate_limiter sv' = rate_limiter sv).
Proof.
  cbn zeta. split; [apply api_heartbeat_unknown | apply api_heartbeat_known].
Qed.

(** X12. [api_send_command] answers 500 without a JSON object, 400
    without a command name (whether or not the client exists), and 404
    for a client without a record, all without any change; otherwise
    it answers 200, whatever the status of the client. The 200 does
    not tell whether the command was queued: with fewer than 10
    commands waiting the command is appended with its data (or [{}])
    and the time of the request, with 10 waiting it is dropped and the
    server state is unchanged. *)
Theorem api_send_command_outcomes cid body now sv :
  let cm := client_manager sv in
  let r := api_send_command empty_payload cid body now sv in
  (body = None → r = (Error 500, sv))
  ∧ (∀ data, body = Some data → truthy (body_command data) = false →
       r = (Error 400, sv))
  ∧ (∀ data, body = Some data → truthy (body_command data) = true →
       clients cm !! cid = None → r = (Error 404, sv))
  ∧ (∀ data name c, body = Some data → body_command data = Some name →
       name ≠ "" → clients cm !! cid = Some c →
       r.1 = Success
       ∧ ((length (queue_of cid cm) < 10)%nat →
            queue_of cid (client_manager r.2)
            = queue_of cid cm
              ++ [{| command := name;
                     data := default empty_payload (body_data data);
                     timestamp := now |}])
       ∧ ((10 ≤ length (queue_of cid cm))%nat → r.2 = sv)).
Proof.
  cbn zeta. unfold api_send_command.
  split; [by intros ->|]. split; [by intros data -> ->|].
  split; [by intros data -> -> ->|].
  intros data name c -> Hname Hne Hc. rewrite Hname, Hc. cbn [truthy].
  replace (String.eqb name "") with false
    by (symmetry; by apply String.eqb_neq).
  cbn [negb fst snd default from_option id client_manager with_manager].
  split; [done|].
  rewrite (add_command_registered _ _ _ _ Hc). change QUEUE_BOUND with 10%nat.
  split; intros Hlen.
  - apply Nat.ltb_lt in Hlen as ->. apply queue_of_insert.
  - apply Nat.ltb_ge in Hlen as ->. apply with_manager_id.
Qed.

(** *** Sequences of requests *)

Lemma serve_cons sv r rs :
  serve empty_payload sv (r :: rs)
  = serve empty_payload (handle empty_payload sv r).2 rs.
Proof. done. Qed.

Lemma serve_app sv rs1 rs2 :
  serve empty_payload sv (rs1 ++ rs2)
  = serve empty_payload (serve empty_payload sv rs1) rs2.
Proof. apply foldl_app. Qed.

Lemma responses_app sv rs1 rs2 :
  responses empty_payload sv (rs1 ++ rs2)
  = responses empty_payload sv rs1
    ++ responses empty_payload (serve empty_payload sv rs1) rs2.
Proof.
  revert sv. induction rs1 as [|r rs1 IH]; intros sv; [done|].
  cbn [app responses]. by rewrite IH, serve_cons.
Qed.

Lemma handle_heartbeat sv cid now :
  handle empty_payload sv (ReqHeartbeat cid now)
  = (Some (api_heartbeat cid now sv).1, (api_heartbeat cid now sv).2).
Proof. unfold handle. by destruct (api_heartbeat cid now sv). Qed.

Lemma handle_send_command sv cid body now :
  handle empty_payload sv (ReqSendCommand cid body now)
  = (Some (api_send_command empty_payload cid body now sv).1,
     (api_send_command empty_payload cid body now sv).2).
Proof. unfold handle. by destruct (api_send_command _ _ _ _ _). Qed.

Lemma handle_register sv body addr t_rate t_seen t_conn :
  handle empty_payload sv (ReqRegister body addr t_rate t_seen t_conn)
  = (Some (api_register body addr t_rate t_seen t_conn sv).1,
     (api_register body addr t_rate t_seen t_conn sv).2).
Proof. unfold handle. by destruct (api_register _ _ _ _ _ _). Qed.

(** Sending named commands to a client with a record. *)
Lemma api_send_command_known cid (b : CommandBody Payload * Z) sv c :
  clients (client_manager sv) !! cid = Some c →
  truthy (body_command b.1) = true →
  api_send_command empty_payload cid (Some b.1) b.2 sv
  = (Success,
     with_manager (add_command cid (entry_of empty_payload b) (client_manager sv)) sv).
Proof.
  intros Hc Hname. unfold api_send_command. by rewrite Hname, Hc.
Qed.

Lemma send_requests_served cid bodies :
  Forall (λ b, truthy (body_command b.1) = true) bodies →
  ∀ sv, is_Some (clients (client_manager sv) !! cid) →
  responses empty_payload sv (send_requests cid bodies)
  = replicate (length bodies) (Some Success)
  ∧ serve empty_payload sv (send_requests cid bodies)
    = with_manager
        (add_commands cid (entry_of empty_payload <$> bodies) (client_manager sv))
        sv.
Proof.
  induction 1 as [|b bodies Hb _ IH]; intros sv [c Hc].
  - cbn. by rewrite with_manager_id.
  - unfold send_requests. rewrite fmap_cons. cbn [responses]. rewrite serve_cons.
    rewrite handle_send_command, (api_send_command_known _ _ _ _ Hc Hb).
    cbn [fst snd]. fold (send_requests cid bodies).
    destruct (IH (with_manager
                    (add_command cid (entry_of empty_payload b) (client_manager sv))
                    sv)) as [-> ->].
    { cbn. rewrite add_command_clients. by exists c. }
    done.
Qed.

Lemma heartbeat_requests_served cid times :
  ∀ sv, is_Some (clients (client_manager sv) !! cid) →
  responses empty_payload sv (heartbeat_requests cid times)
  = (λ i, Some (SuccessCommand (queue_of cid (client_manager sv) !! i)))
      <$> seq 0 (length times).
Proof.
  induction times as [|t times IH]; intros sv [c Hc]; [done|].
  unfold heartbeat_requests. rewrite fmap_cons. cbn [responses].
  rewrite handle_heartbeat.
  destruct (api_heartbeat_known cid t sv c Hc) as (sv' & -> & Hcl & Hq & _).
  cbn [fst snd length seq]. rewrite fmap_cons.
  fold (heartbeat_requests (Payload:=Payload) cid times).
  rewrite IH by (rewrite Hcl, lookup_insert_eq; by eexists).
  rewrite Hq, <- fmap_S_seq, <- list_fmap_compose.
  f_equal.
  - by destruct (queue_of cid (client_manager sv)).
  - apply list_fmap_ext. intros _ i _. cbn.
    by destruct (queue_of cid (client_manager sv)).
Qed.

(** X13. Commands sent to a registered client and its heartbeats,
    end to end: every send request with a command name is answered
    with 200, and the heartbeats that follow deliver, one command each
    and oldest first, what was waiting before and then the earliest of
    the new commands up to the bound of 10 waiting commands; the
    commands sent beyond the bound are never delivered, and once the
    queue is empty the heartbeats carry no command. *)
Theorem commands_delivered_in_order cid c bodies times sv :
  clients (client_manager sv) !! cid = Some c →
  (length (queue_of cid (client_manager sv)) ≤ 10)%nat →
  Forall (λ b, truthy (body_command b.1) = true) bodies →
  let waiting := queue_of cid (client_manager sv) in
  let delivered :=
    waiting ++ take (10 - length waiting) (entry_of empty_payload <$> bodies) in
  responses empty_payload sv
    (send_requests cid bodies ++ heartbeat_requests cid times)
  = replicate (length bodies) (Some Success)
    ++ ((λ i, Some (SuccessCommand (delivered !! i))) <$> seq 0 (length times)).
Proof.
  intros Hc Hlen Hnames. cbn zeta. rewrite responses_app.
  destruct (send_requests_served cid bodies Hnames sv) as [-> ->]; [by eexists|].
  f_equal. rewrite heartbeat_requests_served.
  - cbn [client_manager with_manager].
    by rewrite (add_commands_queue_of cid _ _ c Hc Hlen).
  - cbn. rewrite add_commands_clients. by eexists.
Qed.

(** *** Handlers as calls on the manager *)

Lemma handle_manager_ops sv r :
  client_manager (handle empty_payload sv r).2
  = exec (client_manager sv) (manager_ops empty_payload sv r)
  ∧ Forall (never_registers "") (manager_ops empty_payload sv r).
Proof.
  destruct r as [body addr t_rate t_seen t_conn|cid now|cid body now|now|cpu mem].
  - rewrite handle_register. cbn [snd manager_ops]. unfold api_register.
    destruct (allow_connection t_rate (rate_limiter sv)) as [allowed rl].
    cbn [fst]. destruct allowed; cbn [negb]; [|by split].
    destruct body as [data|]; [|by split].
    destruct (truthy (body_client_id data)) eqn:Hid; cbn [negb]; [|by split].
    apply truthy_Some in Hid as (cid & Hcid & Hne). rewrite Hcid.
    cbn [default from_option id client_manager with_limiter].
    split; [|by repeat constructor].
    unfold exec. cbn [foldl]. rewrite step_state.
    by destruct (register_client _ _ _ _ _ _) as [[] cm].
  - rewrite handle_heartbeat. cbn [snd manager_ops]. unfold api_heartbeat.
    destruct (clients (client_manager sv) !! cid) as [c|] eqn:Hc.
    + split; [|by repeat constructor].
      unfold exec. cbn [foldl]. rewrite !step_state.
      rewrite (update_heartbeat_known _ _ _ _ Hc). cbn [fst snd].
      by destruct (get_command _ _).
    + split; [|by repeat constructor].
      rewrite update_heartbeat_unknown by done. cbn.
      by rewrite update_heartbeat_unknown.
  - rewrite handle_send_command. cbn [snd manager_ops]. unfold api_send_command.
    destruct body as [data|]; [|by split].
    destruct (truthy (body_command data)); cbn [negb]; [|by split].
    destruct (clients (client_manager sv) !! cid); [|by split].
    split; [done | by repeat constructor].
  - split; [done | by repeat constructor].
  - split; [done | by repeat constructor].
Qed.

Lemma serve_manager_ops rs :
  ∀ sv, ∃ ops,
    client_manager (serve empty_payload sv rs) = exec (client_manager sv) ops
    ∧ Forall (never_registers "") ops.
Proof.
  induction rs as [|r rs IH]; intros sv.
  - by exists [].
  - rewrite serve_cons.
    destruct (IH (handle empty_payload sv r).2) as (ops & -> & Hops).
    destruct (handle_manager_ops sv r) as [-> Hr].
    exists (manager_ops empty_payload sv r ++ ops).
    split; [by rewrite exec_app | by apply Forall_app].
Qed.

Lemma handle_within_limit sv r :
  within_limit (rate_limiter sv) →
  within_limit (rate_limiter (handle empty_payload sv r).2)
  ∧ max_connections (rate_limiter (handle empty_payload sv r).2)
    = max_connections (rate_limiter sv).
Proof.
  intros Hinv.
  destruct r as [body addr t_rate t_seen t_conn|cid now|cid body now|now|cpu mem].
  - rewrite handle_register. cbn [snd].
    assert (Hrl : rate_limiter (api_register body addr t_rate t_seen t_conn sv).2
                  = (allow_connection t_rate (rate_limiter sv)).2).
    { unfold api_register.
      destruct (allow_connection t_rate (rate_limiter sv)) as [[] rl]; cbn [negb];
        [|done].
      destruct body as [data|]; [|done].
      destruct (truthy _); cbn [negb]; [|done].
      by destruct (register_client _ _ _ _ _ _) as [[] cm]. }
    rewrite Hrl. split;
      [by apply allow_connection_within_limit | apply allow_connection_max].
  - rewrite handle_heartbeat. cbn [snd]. unfold api_heartbeat.
    destruct (update_heartbeat _ _ _) as [[] cm]; [|done].
    by destruct (get_command _ _).
  - rewrite handle_send_command. cbn [snd]. unfold api_send_command.
    destruct body as [data|]; [|done].
    destruct (truthy _); cbn [negb]; [|done].
    by destruct (clients (client_manager sv) !! cid).
  - done.
  - done.
Qed.

Lemma serve_within_limit rs :
  ∀ sv, within_limit (rate_limiter sv) →
  within_limit (rate_limiter (serve empty_payload sv rs))
  ∧ max_connections (rate_limiter (serve empty_payload sv rs))
    = max_connections (rate_limiter sv).
Proof.
  induction rs as [|r rs IH]; intros sv Hinv; [done|].
  rewrite serve_cons. destruct (handle_within_limit sv r Hinv) as [H1 H2].
  destruct (IH _ H1) as [H3 H4]. split; [done | by rewrite H4].
Qed.

(** X14. Whatever requests the server answers from its start, in
    whatever order: no client is ever registered under the empty
    identifier, every record is stored under its own [client_id], no
    queue holds more than 10 commands, the status report never shows
    more active clients than clients nor more than 10 queued commands
    per client, the capacity stays 50, and the rate limiter never holds
    more than 100 timestamps. *)
Theorem server_invariants (rs : list (Request Payload)) :
  let sv := serve empty_payload Server_init rs in
  let s := api_system_status sv in
  clients (client_manager sv) !! "" = None
  ∧ keyed_by_id (clients (client_manager sv))
  ∧ queues_bounded (commands_queue (client_manager sv))
  ∧ (active_clients s ≤ total_clients s)%nat
  ∧ (total_commands_queued s ≤ 10 * total_clients s)%nat
  ∧ status_max_clients s = 50
  ∧ (length (connection_times (rate_limiter sv)) ≤ 100)%nat.
Proof.
  cbn zeta. unfold api_system_status.
  destruct (serve_manager_ops rs Server_init) as (ops & -> & Hops).
  cbn [client_manager Server_init].
  assert (Hq : queues_of_clients (exec (ClientManager_init 50 0.8) ops)).
  { apply (exec_queues_of_clients (Command:=CommandEntry Payload)).
    unfold queues_of_clients. cbn. by rewrite !dom_empty_L. }
  assert (Hb : queues_bounded
                 (commands_queue (exec (ClientManager_init 50 0.8) ops))).
  { apply (exec_queues_bounded (Command:=CommandEntry Payload)).
    intros k q. cbn. by rewrite lookup_empty. }
  split; [by apply exec_never_registers|].
  split.
  { apply (exec_keyed_by_id (Command:=CommandEntry Payload)).
    intros k c. cbn. by rewrite lookup_empty. }
  split; [done|]. split; [apply online_count_le_size|]. split; [|split].
  - etrans; [by apply total_commands_queued_bounded|].
    change QUEUE_BOUND with 10%nat. apply Nat.mul_le_mono_l.
    cbn [total_clients get_system_status].
    rewrite <- !size_dom. by apply subseteq_size.
  - cbn. by rewrite exec_max_clients.
  - destruct (serve_within_limit rs Server_init) as [Hlim Hmax].
    { unfold within_limit. cbn. lia. }
    unfold within_limit in Hlim. rewrite Hmax in Hlim. cbn in Hlim. lia.
Qed.

(** *** The background task *)

Lemma online_count_pos (m : gmap string ClientInfo) :
  (0 < online_count m)%nat ↔ ∃ cid c, m !! cid = Some c ∧ status c = "online".
Proof.
  unfold online_count. split.
  - destruct (filter _ _) as [|c l] eqn:Hf; cbn; [lia|]. intros _.
    assert (Hin : c ∈ filter (λ c, status c = "online") (map_to_list m).*2)
      by (rewrite Hf; left).
    apply list_elem_of_filter in Hin as [Hon Hin].
    apply list_elem_of_fmap in Hin as ([cid c'] & -> & Hin).
    apply elem_of_map_to_list in Hin. by exists cid, c'.
  - intros (cid & c & Hc & Hon).
    assert (Hin : c ∈ filter (λ c, status c = "online") (map_to_list m).*2).
    { apply list_elem_of_filter. split; [done|].
      apply list_elem_of_fmap. exists (cid, c). split; [done|].
      by apply elem_of_map_to_list. }
    destruct (filter _ _); [by apply elem_of_nil in Hin | cbn; lia].
Qed.

(** X15. One pass of the background task sweeps with a timeout of 300
    seconds: afterwards every client that is online was seen in the
    last 300 seconds, the status line is logged exactly when some
    client is online, and neither the set of records, nor any command
    queue, nor the rate limiter has changed. *)
Theorem background_tasks_pass now sv :
  let r := background_tasks now sv in
  (∀ cid c, clients (client_manager r.2) !! cid = Some c →
     status c = "online" →
     (total_seconds (now - last_seen c) <= 300)%Q)
  ∧ (r.1 = true ↔
     ∃ cid c, clients (client_manager r.2) !! cid = Some c ∧ status c = "online")
  ∧ dom (clients (client_manager r.2)) = dom (clients (client_manager sv))
  ∧ commands_queue (client_manager r.2) = commands_queue (client_manager sv)
  ∧ rate_limiter r.2 = rate_limiter sv.
Proof.
  cbn zeta. unfold background_tasks. cbn [fst snd client_manager with_manager].
  split; [intros cid c; apply cleanup_online_recent|].
  split.
  { cbn [active_clients get_system_status].
    rewrite Nat.ltb_lt. apply online_count_pos. }
  rewrite cleanup_inactive_clients_fmap. cbn.
  split; [apply dom_fmap_L | done].
Qed.

End ApiFacts.

(* ------------------------------------------------------------------ *)
(** ** The further statements on concrete runs *)

(** The record of ["c1"] is found under ["c1"]. *)
Lemma client_id_is_key_witness :
  clients (exec (ClientManager_init (Command:=string) 50 0.8%Q)
             [OpRegister "c1" "10.0.0.1" "host" 0 0]) !! "c1"
  = Some (ClientInfo_new "c1" "10.0.0.1" "host" 0 0)
  ∧ client_id (ClientInfo_new "c1" "10.0.0.1" "host" 0 0) = "c1".
Proof.
  assert (Hc : clients (exec (ClientManager_init (Command:=string) 50 0.8%Q)
                          [OpRegister "c1" "10.0.0.1" "host" 0 0]) !! "c1"
               = Some (ClientInfo_new "c1" "10.0.0.1" "host" 0 0))
    by reflexivity.
  split; [done|].
  exact (client_id_is_key 50 0.8%Q _ "c1" _ Hc).
Defined.

(** A client heard 101 seconds before the sweep stays online. *)
Lemma cleanup_leaves_live_clients_witness :
  let st := (update_heartbeat "c2" 200000000
               (register_client "c2" "10.0.0.2" "host" 0 0 manager_c1).2).2 in
  let st' := cleanup_inactive_clients 300%Q 301000000 st in
  clients st' !! "c2"
  = Some (ClientInfo_new "c2" "10.0.0.2" "host" 200000000 0)
  ∧ status (ClientInfo_new "c2" "10.0.0.2" "host" 200000000 0) = "online"
  ∧ (total_seconds (301000000 - 200000000) <= 300)%Q.
Proof.
  intros st st'.
  assert (Hc : clients st' !! "c2"
               = Some (ClientInfo_new "c2" "10.0.0.2" "host" 200000000 0))
    by reflexivity.
  split; [done|]. split; [done|].
  exact (proj1 (cleanup_leaves_live_clients 300%Q 301000000 st) "c2" _ Hc eq_refl).
Defined.

(** Under CPU load and without a new sample, a registration fails. *)
Lemma stale_snapshot_rejects_witness :
  let ops : list (Op string) :=
    [OpCleanup 300%Q 5; OpMonitor None (Some 10%Q);
     OpRegister "c1" "10.0.0.1" "host" 6 6] in
  overloaded manager_loaded
  ∧ Forall no_sample ops
  ∧ results manager_loaded ops !! 2%nat = Some (RBool false).
Proof.
  intros ops.
  assert (Hov : overloaded manager_loaded) by (left; reflexivity).
  assert (Hops : Forall no_sample ops) by (repeat constructor).
  split; [done|]. split; [done|].
  exact (stale_snapshot_rejects manager_loaded ops Hov Hops
           2%nat "c1" "10.0.0.1" "host" 6 6 eq_refl).
Defined.

(** ["c1"] registers a second time. *)
Lemma register_again_witness :
  let st' := (register_client "c1" "10.0.0.9" "host" 7 8 manager_c1).2 in
  clients manager_c1 !! "c1"
  = Some (ClientInfo_new "c1" "10.0.0.1" "host" 0 0)
  ∧ ¬ admission_rejected manager_c1
  ∧ size (clients st') = size (clients manager_c1)
  ∧ (connection_time <$> clients st' !! "c1") = Some 8.
Proof.
  intros st'.
  assert (Hc : clients manager_c1 !! "c1"
               = Some (ClientInfo_new "c1" "10.0.0.1" "host" 0 0))
    by reflexivity.
  assert (Hacc : ¬ admission_rejected manager_c1)
    by (apply can_accept_client_true; reflexivity).
  destruct (register_again "c1" "10.0.0.9" "host" 7 8 manager_c1 _ Hc Hacc)
    as (Hsize & _ & _ & Hconn).
  split; [done|]. split; [done|]. split; [exact Hsize | exact Hconn].
Defined.

(** Four calls in four seconds with a maximum of 3. *)
Lemma rate_limiter_one_window_witness :
  one_window 0%Q [0%Q; 1%Q; 2%Q; 3%Q]
  ∧ (allow_connections [0%Q; 1%Q; 2%Q; 3%Q] (ConnectionRateLimiter_init 3)).1
    = [true; true; true; false].
Proof.
  assert (Hwin : one_window 0%Q [0%Q; 1%Q; 2%Q; 3%Q]).
  { repeat constructor; vm_compute; congruence. }
  split; [done|].
  exact (rate_limiter_one_window 3 0%Q _ Hwin).
Defined.

(** A registration that is admitted, and one without identifier. *)
Lemma api_register_outcomes_witness :
  let body := Some {| body_client_id := Some "c1"; body_hostname := None |} in
  let nameless := {| body_client_id := Some ""; body_hostname := Some "pc" |} in
  (allow_connection 0%Q (rate_limiter (Server_init (Payload:=string)))).1 = true
  ∧ ¬ admission_rejected (client_manager (Server_init (Payload:=string)))
  ∧ (api_register body "10.0.0.1" 0%Q 0 0 (Server_init (Payload:=string))).1
    = Success
  ∧ truthy (body_client_id nameless) = false
  ∧ (api_register (Some nameless) "10.0.0.1" 0%Q 0 0
       (Server_init (Payload:=string))).1 = Error 400.
Proof.
  intros body nameless.
  assert (Hallowed :
            (allow_connection 0%Q (rate_limiter (Server_init (Payload:=string)))).1
            = true) by reflexivity.
  assert (Hacc : ¬ admission_rejected
                     (client_manager (Server_init (Payload:=string))))
    by (apply can_accept_client_true; reflexivity).
  assert (Hfalsy : truthy (body_client_id nameless) = false) by reflexivity.
  destruct (api_register_outcomes body "10.0.0.1" 0%Q 0 0
              (Server_init (Payload:=string)))
    as (_ & _ & _ & _ & _ & Hreg).
  destruct (api_register_outcomes (Some nameless) "10.0.0.1" 0%Q 0 0
              (Server_init (Payload:=string)))
    as (_ & _ & _ & _ & H400 & _).
  split; [done|]. split; [done|]. split.
  - exact (proj1 (proj2 (Hreg Hallowed _ "c1" eq_refl eq_refl
                           ltac:(discriminate)) Hacc)).
  - split; [done|]. exact (proj1 (H400 Hallowed nameless eq_refl Hfalsy)).
Defined.

(** A heartbeat of an unknown client and one of ["c1"]. *)
Lemma api_heartbeat_outcomes_witness :
  (clients (client_manager server_c1) !! "ghost" = None
   ∧ api_heartbeat "ghost" 5 server_c1 = (Error 404, server_c1))
  ∧ (clients (client_manager server_c1) !! "c1"
     = Some (ClientInfo_new "c1" "10.0.0.1" "Unknown" 0 0)
     ∧ (api_heartbeat "c1" 5 server_c1).1 = SuccessCommand None).
Proof.
  assert (Hnone : clients (client_manager server_c1) !! "ghost" = None)
    by reflexivity.
  assert (Hc : clients (client_manager server_c1) !! "c1"
               = Some (ClientInfo_new "c1" "10.0.0.1" "Unknown" 0 0))
    by reflexivity.
  split; split; [done| |done|].
  - exact (proj1 (api_heartbeat_outcomes "ghost" 5 server_c1) Hnone).
  - destruct (proj2 (api_heartbeat_outcomes "c1" 5 server_c1) _ Hc)
      as (sv' & -> & _).
    reflexivity.
Defined.

(** A command for ["c1"], whose queue has room. *)
Lemma api_send_command_outcomes_witness :
  let r := api_send_command "{}" "c1" (Some (named_body "screenshot")) 9
             server_c1 in
  clients (client_manager server_c1) !! "c1"
  = Some (ClientInfo_new "c1" "10.0.0.1" "Unknown" 0 0)
  ∧ (length (queue_of "c1" (client_manager server_c1)) < 10)%nat
  ∧ r.1 = Success
  ∧ queue_of "c1" (client_manager r.2)
    = [{| command := "screenshot"; data := "{}"; timestamp := 9 |}].
Proof.
  intros r.
  assert (Hc : clients (client_manager server_c1) !! "c1"
               = Some (ClientInfo_new "c1" "10.0.0.1" "Unknown" 0 0))
    by reflexivity.
  assert (Hlen : (length (queue_of "c1" (client_manager server_c1)) < 10)%nat)
    by (vm_compute; lia).
  destruct (api_send_command_outcomes "{}" "c1"
              (Some (named_body "screenshot")) 9 server_c1)
    as (_ & _ & _ & Hsend).
  destruct (Hsend (named_body "screenshot") "screenshot" _ eq_refl eq_refl
              ltac:(discriminate) Hc) as (Hok & Hroom & _).
  split; [done|]. split; [done|]. split; [exact Hok | exact (Hroom Hlen)].
Defined.

(** Two commands and three heartbeats. *)
Lemma commands_delivered_in_order_witness :
  let bodies := [(named_body "screenshot", 9); (named_body "lock", 10)] in
  clients (client_manager server_c1) !! "c1"
  = Some (ClientInfo_new "c1" "10.0.0.1" "Unknown" 0 0)
  ∧ (length (queue_of "c1" (client_manager server_c1)) ≤ 10)%nat
  ∧ Forall (λ b, truthy (body_command b.1) = true) bodies
  ∧ responses "{}" server_c1
      (send_requests "c1" bodies ++ heartbeat_requests "c1" [11; 12; 13])
    = [Some Success; Some Success;
       Some (SuccessCommand
               (Some {| command := "screenshot"; data := "{}"; timestamp := 9 |}));
       Some (SuccessCommand
               (Some {| command := "lock"; data := "{}"; timestamp := 10 |}));
       Some (SuccessCommand None)].
Proof.
  intros bodies.
  assert (Hc : clients (client_manager server_c1) !! "c1"
               = Some (ClientInfo_new "c1" "10.0.0.1" "Unknown" 0 0))
    by reflexivity.
  assert (Hlen : (length (queue_of "c1" (client_manager server_c1)) ≤ 10)%nat)
    by (vm_compute; lia).
  assert (Hnames : Forall (λ b, truthy (body_command b.1) = true) bodies)
    by (repeat constructor).
  split; [done|]. split; [done|]. split; [done|].
  exact (commands_delivered_in_order "{}" "c1" _ bodies [11; 12; 13] server_c1
           Hc Hlen Hnames).
Defined.

(** A pass of the background task one second after the registration. *)
Lemma background_tasks_pass_witness :
  let r := background_tasks 1000000 server_c1 in
  clients (client_manager r.2) !! "c1"
  = Some (ClientInfo_new "c1" "10.0.0.1" "Unknown" 0 0)
  ∧ status (ClientInfo_new "c1" "10.0.0.1" "Unknown" 0 0) = "online"
  ∧ (total_seconds (1000000 - 0) <= 300)%Q
  ∧ r.1 = true.
Proof.
  intros r.
  assert (Hc : clients (client_manager r.2) !! "c1"
               = Some (ClientInfo_new "c1" "10.0.0.1" "Unknown" 0 0))
    by reflexivity.
  destruct (background_tasks_pass 1000000 server_c1) as (Hlive & Hlog & _).
  split; [done|]. split; [done|]. split.
  - exact (Hlive "c1" _ Hc eq_refl).
  - apply Hlog. by exists "c1", (ClientInfo_new "c1" "10.0.0.1" "Unknown" 0 0).
Defined.
